(** * cds-caching: the read-through coordinator of [lib/operations/CapOperations.js]

    A shallow embedding of the class [CapOperations] (methods
    [safeCacheOperation], [send], [run], [extractCacheOptions],
    [extractFunctionCacheOptions], [extractEntityCacheOptions],
    [extractMetadataFromRequest], [getElapsedMs]) and, of
    [lib/CachingService.js], of the deprecated shortcuts [send] and [run], of
    [addCachableFunction] and of the handlers of the events "SET" and "GET",
    followed by the properties of the read-through protocol.

    Modelling conventions.
    - JavaScript values are a first-order tree type [JsValue]; objects are
      association lists in insertion order together with the name of their
      constructor.  Functions that the code only tests for presence are the
      opaque token [JFun]; functions that the code calls are collaborators.
    - [async]/[await] is sequentialised: one call runs from start to end.
    - A collaborator (the cache service, the statistics handler, the origin)
      is an arbitrary function on an abstract environment [Env] that either
      returns a value or throws.  Every call expression the coordinator
      evaluates on a collaborator is appended, with its outcome, to a trace.
    - Thrown values are error objects ([JsError]); a thrown [null] or
      [undefined], on which reading [.message] fails, is outside the model.
    - The logger and [res.setHeader] only record an event and return.
    - Numbers are exact rationals; [NaN], infinities and rounding are outside
      the model.
    - A collaborator acts on the environment only: it does not assign to the
      request or query object that the coordinator holds. *)

From Stdlib Require Import String Ascii List ZArith QArith Bool Lia DecimalString.
From ExtLib Require Import Structures.Monad Structures.MonadExc.
Import ListNotations.
Close Scope Q_scope.
Open Scope string_scope.

Set Implicit Arguments.

(** ** JavaScript values *)

Set Warnings "-register-all".

Module Js.

Inductive JsValue : Type :=
| JUndefined
| JNull
| JBool (b : bool)
| JNum (q : Q)
| JStr (s : string)
| JFun (name : string)
| JArr (items : list JsValue)
| JObj (ctor : string) (props : list (string * JsValue)).

(** An object literal [{ k1: v1, ... }]. *)
Definition obj (props : list (string * JsValue)) : JsValue := JObj "Object" props.

Definition num (z : Z) : JsValue := JNum (inject_Z z).

(** [typeof v] *)
Definition typeof (v : JsValue) : string :=
  match v with
  | JUndefined => "undefined"
  | JNull => "object"
  | JBool _ => "boolean"
  | JNum _ => "number"
  | JStr _ => "string"
  | JFun _ => "function"
  | JArr _ => "object"
  | JObj _ _ => "object"
  end.

(** ToBoolean *)
Definition truthy (v : JsValue) : bool :=
  match v with
  | JUndefined | JNull => false
  | JBool b => b
  | JNum q => negb (Qeq_bool q (inject_Z 0))
  | JStr s => negb (String.eqb s "")
  | JFun _ | JArr _ | JObj _ _ => true
  end.

Definition nullish (v : JsValue) : bool :=
  match v with
  | JUndefined | JNull => true
  | _ => false
  end.

(** The operators [a || b] and [a && b] on values. *)
Definition or_else (a b : JsValue) : JsValue := if truthy a then a else b.
Definition and_then (a b : JsValue) : JsValue := if truthy a then b else a.

Fixpoint assoc (p : string) (props : list (string * JsValue)) : JsValue :=
  match props with
  | [] => JUndefined
  | (k, v) :: rest => if String.eqb k p then v else assoc p rest
  end.

(** [v.p] for a [v] that is neither [null] nor [undefined].  The code reads
    only named data properties; inherited ones ([length], methods) are not
    modelled, and [constructor] is read through [constructor_name]. *)
Definition get (v : JsValue) (p : string) : JsValue :=
  match v with
  | JObj _ props => assoc p props
  | _ => JUndefined
  end.

(** [v?.p] *)
Definition get_opt (v : JsValue) (p : string) : JsValue :=
  if nullish v then JUndefined else get v p.

(** [v.constructor.name] for a [v] that is neither [null] nor [undefined]. *)
Definition constructor_name (v : JsValue) : string :=
  match v with
  | JBool _ => "Boolean"
  | JNum _ => "Number"
  | JStr _ => "String"
  | JFun _ => "Function"
  | JArr _ => "Array"
  | JObj ctor _ => ctor
  | JUndefined | JNull => ""
  end.

(** [x !== undefined] *)
Definition is_defined (v : JsValue) : bool :=
  match v with
  | JUndefined => false
  | _ => true
  end.

(** [a === b] on primitives; two objects are taken to be distinct
    allocations. *)
Definition strict_eq (a b : JsValue) : bool :=
  match a, b with
  | JUndefined, JUndefined => true
  | JNull, JNull => true
  | JBool x, JBool y => Bool.eqb x y
  | JNum x, JNum y => Qeq_bool x y
  | JStr x, JStr y => String.eqb x y
  | JFun x, JFun y => String.eqb x y
  | _, _ => false
  end.

Fixpoint set_prop (p : string) (v : JsValue) (props : list (string * JsValue))
  : list (string * JsValue) :=
  match props with
  | [] => [(p, v)]
  | (k, w) :: rest =>
      if String.eqb k p then (k, v) :: rest else (k, w) :: set_prop p v rest
  end.

(** [o.p = v] on an object. *)
Definition assign (o : JsValue) (p : string) (v : JsValue) : JsValue :=
  match o with
  | JObj ctor props => JObj ctor (set_prop p v props)
  | _ => o
  end.

Definition index_name (i : nat) : string := NilZero.string_of_uint (Nat.to_uint i).

Fixpoint indexed (i : nat) (items : list JsValue) : list (string * JsValue) :=
  match items with
  | [] => []
  | x :: rest => (index_name i, x) :: indexed (S i) rest
  end.

Fixpoint chars (s : string) : list JsValue :=
  match s with
  | EmptyString => []
  | String c rest => JStr (String c EmptyString) :: chars rest
  end.

(** The own enumerable properties that [...v] copies into an object
    literal. *)
Definition own_props (v : JsValue) : list (string * JsValue) :=
  match v with
  | JObj _ props => props
  | JArr items => indexed 0 items
  | JStr s => indexed 0 (chars s)
  | _ => []
  end.

(** [{ ...base, ...v }]: the properties of [v] are written over [base]. *)
Definition spread_into (base : list (string * JsValue)) (v : JsValue)
  : list (string * JsValue) :=
  fold_left (fun acc kv => set_prop (fst kv) (snd kv) acc) (own_props v) base.

Definition upper_ascii (c : ascii) : ascii :=
  let n := nat_of_ascii c in
  if (97 <=? n)%nat && (n <=? 122)%nat then ascii_of_nat (n - 32) else c.

(** [String.prototype.toUpperCase], exact on ASCII strings. *)
Fixpoint toUpperCase (s : string) : string :=
  match s with
  | EmptyString => EmptyString
  | String c rest => String (upper_ascii c) (toUpperCase rest)
  end.

(** [list.includes(v)] for a list of string literals. *)
Definition includes (l : list string) (v : JsValue) : bool :=
  match v with
  | JStr s => existsb (String.eqb s) l
  | _ => false
  end.

(** A thrown error object: what the code reads of it, and its class name. *)
Record JsError : Type := mkError {
  err_name : string;
  err_message : JsValue;
  err_stack : JsValue
}.

Definition TypeError (message : string) : JsError :=
  {| err_name := "TypeError"; err_message := JStr message; err_stack := JUndefined |}.

Inductive Outcome (A : Type) : Type :=
| Returned (a : A)
| Thrown (e : JsError).
Arguments Thrown {A} e.

End Js.
Import Js.

(** ** Collaborators and the coordinator's monad *)

Import MonadNotation.
Open Scope monad_scope.

Section Coordinator.

Variable Env : Type.

(** The behaviour of one collaborator call: it reads and updates the
    environment and either returns or throws. *)
Definition Eff (A : Type) : Type := Env -> Outcome A * Env.

(** [this.cache]: the caching service, used through [has(key)] and the
    generic dispatch [send(event, data)] with the events "GET" and "SET". *)
Record Cache : Type := {
  cache_has : JsValue -> Eff JsValue;
  cache_send : string -> JsValue -> Eff JsValue
}.

(** Modelled from the spec: [KeyManager] (lib/support/KeyManager.js is not
    among the sources).  Spec 4.1: a deterministic function of its arguments
    that never raises. *)
Record KeyManager : Type := {
  createKey : JsValue -> JsValue -> JsValue -> JsValue;
  createContentHash : JsValue -> JsValue
}.

(** Modelled from the spec: [TagResolver] (lib/support/TagResolver.js is not
    among the sources).  Spec 4.2: never throws. *)
Record TagResolver : Type := {
  resolveTags : JsValue -> JsValue -> JsValue -> JsValue
}.

(** [this.statistics]: the statistics handler. *)
Record Statistics : Type := {
  recordHit : JsValue -> JsValue -> JsValue -> Eff JsValue;
  recordMiss : JsValue -> JsValue -> JsValue -> Eff JsValue
}.

(** The fields of a [CapOperations] instance that [send] and [run] use;
    [this.log] is the trace. *)
Record CapOperations : Type := {
  cache : Cache;
  keyManager : KeyManager;
  statistics : Statistics;
  tagResolver : TagResolver;
  cacheAnnotatedFunctions_bound : list JsValue;
  cacheAnnotatedFunctions_unbound : list JsValue
}.

(** The [service] argument of [send]: its name and its [send] method when it
    has one. *)
Record Service : Type := {
  svc_name : JsValue;
  svc_send : option (JsValue -> Eff JsValue)
}.

(** A service as [run] uses it for a query: its name and its [run] method
    when it has one. *)
Record Srv : Type := {
  srv_name : JsValue;
  srv_run : option (JsValue -> Eff JsValue)
}.

(** [arguments[1]] of [run]: a handler function, a service, or any other
    value. *)
Inductive Arg2 : Type :=
| A2Function (name : string) (body : Eff JsValue)
| A2Service (srv : Srv)
| A2Value (v : JsValue).

(** What the code takes from the runtime: the ambient [cds.context], the
    [cds] facade as a service, [JSON.stringify(value, null, space)],
    [process.hrtime([start])] and [Date.now()]. *)
Record Globals : Type := {
  cds_context : JsValue;
  cds : Srv;
  JSON_stringify : JsValue -> JsValue -> JsValue;
  hrtime : option (Z * Z) -> Env -> (Z * Z) * Env;
  Date_now : Env -> JsValue * Env
}.

Variable G : Globals.

(** Call expressions on collaborators, as they appear in the trace. *)
Inductive Call : Type :=
| CacheHas (key : JsValue)
| CacheSend (event : string) (data : JsValue)
| RecordHit (latency key metadata : JsValue)
| RecordMiss (latency key metadata : JsValue)
| ServiceSend (request : JsValue)
| NextHandler
| SrvRun (query : JsValue)
| SuperRun (arg1 : JsValue)
| SetHeader (name : string) (value : JsValue)
| ProcessHrtime (start : option (Z * Z))
| DateNow
| Log (level : string) (args : list JsValue).

Record Event : Type := mkEvent {
  ev_call : Call;
  ev_outcome : Outcome JsValue
}.

Record World : Type := mkWorld {
  trace : list Event;
  env : Env
}.

Definition M (A : Type) : Type := World -> Outcome A * World.

#[global] Instance Monad_M : Monad M := {|
  ret := fun _ a w => (Returned a, w);
  bind := fun _ _ m f w =>
    match m w with
    | (Returned a, w') => f a w'
    | (Thrown e, w') => (Thrown e, w')
    end
|}.

(** [raise] is [throw]; [catch m h] is [try { m } catch (e) { h e }]. *)
#[global] Instance Exc_M : MonadExc JsError M := {|
  raise := fun _ e w => (Thrown e, w);
  catch := fun _ m h w =>
    match m w with
    | (Returned a, w') => (Returned a, w')
    | (Thrown e, w') => h e w'
    end
|}.

(** Evaluate a call expression on a collaborator and record it. *)
Definition call (c : Call) (f : Eff JsValue) : M JsValue :=
  fun w =>
    let (o, e') := f (env w) in
    (o, {| trace := trace w ++ [mkEvent c o]; env := e' |}).

(** Call a method that may be absent: calling what is not a function throws
    a TypeError at the call expression. *)
Definition call_method (c : Call) (name : string) (f : option (Eff JsValue)) : M JsValue :=
  match f with
  | Some body => call c body
  | None => call c (fun e => (Thrown (TypeError (name ++ " is not a function")), e))
  end.

(** An effect that only records an event. *)
Definition emit (c : Call) : M unit :=
  fun w => (Returned tt, {| trace := trace w ++ [mkEvent c (Returned JUndefined)]; env := env w |}).

(** [this.log.<level>(...args)] *)
Definition log (level : string) (args : list JsValue) : M unit := emit (Log level args).

(** [process.hrtime()] and [process.hrtime(start)]: a pair of seconds and
    nanoseconds. *)
Definition process_hrtime (start : option (Z * Z)) : M (Z * Z) :=
  fun w =>
    let (t, e') := hrtime G start (env w) in
    (Returned t,
     {| trace := trace w ++ [mkEvent (ProcessHrtime start)
                                     (Returned (JArr [num (fst t); num (snd t)]))];
        env := e' |}).

(** [Date.now()] *)
Definition Date_now_call : M JsValue :=
  fun w =>
    let (t, e') := Date_now G (env w) in
    (Returned t, {| trace := trace w ++ [mkEvent DateNow (Returned t)]; env := e' |}).

(** [v.p], throwing on [null] and [undefined]. *)
Definition member (v : JsValue) (p : string) : M JsValue :=
  if nullish v
  then raise (TypeError ("Cannot read properties of " ++ (if typeof v =? "undefined" then "undefined" else "null") ++ " (reading '" ++ p ++ "')"))
  else ret (get v p).

(** [v?.toUpperCase()] *)
Definition toUpperCase_opt (v : JsValue) : M JsValue :=
  match v with
  | JUndefined | JNull => ret JUndefined
  | JStr s => ret (JStr (toUpperCase s))
  | _ => raise (TypeError "request.method?.toUpperCase is not a function")
  end.

(** A default parameter [p = d]. *)
Definition default_param (v d : JsValue) : JsValue :=
  match v with
  | JUndefined => d
  | _ => v
  end.

(** [{ ...props, k1: v1, ... }] *)
Definition extend (props kvs : list (string * JsValue)) : list (string * JsValue) :=
  fold_left (fun acc kv => set_prop (fst kv) (snd kv) acc) kvs props.

(** ** [CapOperations] *)

(** [getElapsedMs(startTime)] *)
Definition getElapsedMs (startTime : Z * Z) : M JsValue :=
  d <- process_hrtime (Some startTime) ;;
  let (seconds, nanoseconds) := d in
  ret (JNum (inject_Z seconds * inject_Z 1000 + inject_Z nanoseconds / inject_Z 1000000)%Q).

(** [safeCacheOperation(operation, operationName, context = {})] *)
Definition safeCacheOperation (operation : M JsValue) (operationName : string)
    (context : JsValue) : M JsValue :=
  let context := default_param context (obj []) in
  catch
    (result <- operation ;;
     log "debug" [JStr "REEEESULT"; obj [("result", result)]] ;;
     ret (obj [("success", JBool true); ("result", result); ("error", JNull)]))
    (fun error =>
     log "warn" [JStr ("Cache " ++ operationName ++ " failed:");
                 obj [("error", err_message error);
                      ("stack", err_stack error);
                      ("context", context)]] ;;
     ret (obj [("success", JBool false);
               ("result", JNull);
               ("error", obj [("message", err_message error);
                              ("operation", JStr operationName);
                              ("context", context)])])).

(** The response envelope
    [{ result, cacheKey, metadata: { hit, latency }, cacheErrors }]. *)
Definition envelope (result cacheKey hit latency : JsValue) (cacheErrors : list JsValue)
  : JsValue :=
  obj [("result", result);
       ("cacheKey", cacheKey);
       ("metadata", obj [("hit", hit); ("latency", latency)]);
       ("cacheErrors", JArr cacheErrors)].

(** [{ result: null, cacheKey: null, metadata: { hit: false, latency: 0 },
    cacheErrors: [] }] *)
Definition bypass_envelope : JsValue :=
  envelope JNull JNull (JBool false) (num 0) [].

(** [if (!r.success) cacheErrors.push(r.error)] *)
Definition push_unless_success (cacheErrors : list JsValue) (r : JsValue) : list JsValue :=
  if truthy (get r "success") then cacheErrors else cacheErrors ++ [get r "error"].

(** [{ ttl: 0, ...(options || {}) }], the [requestOptions] of [send] *)
Definition send_requestOptions (options : JsValue) : JsValue :=
  obj (spread_into [("ttl", num 0)] (or_else options (obj []))).

(** [send(request, service, options)] *)
Definition send (this : CapOperations) (request : JsValue) (service : Service)
    (options : JsValue) : M JsValue :=
  let requestOptions := send_requestOptions options in
  method <- member request "method" ;;
  upper <- toUpperCase_opt method ;;
  if includes ["POST"; "PUT"; "DELETE"; "PATCH"] upper
     || match svc_send service with Some _ => false | None => true end
  then ret bypass_envelope
  else
    let ctx := cds_context G in
    let path := or_else (get request "path")
                   (get_opt (get_opt (get request "http") "req") "path") in
    let keyParts :=
      obj [("user", or_else (get_opt (get_opt ctx "user") "id") (get_opt ctx "user"));
           ("tenant", get_opt ctx "tenant");
           ("locale", get_opt ctx "locale");
           ("serviceName", svc_name service);
           ("path", path);
           ("method", get request "method");
           ("data", get request "data");
           ("params", get request "params");
           ("query", get request "query");
           ("event", get request "event")] in
    let key := createKey (keyManager this) request keyParts (get requestOptions "key") in
    startTime <- process_hrtime None ;;
    let metadata :=
      obj [("dataType", if truthy (get request "send")
                        then JStr (constructor_name request) else JStr "SendRequest");
           ("operation", JStr "SEND");
           ("operationType", JStr "READ_THROUGH");
           ("tenant", or_else (get request "tenant") (get_opt ctx "tenant"));
           ("user", or_else (get_opt (get request "user") "id")
                       (get_opt (get_opt ctx "user") "id"));
           ("locale", or_else (get request "locale") (get_opt ctx "locale"));
           ("target", get_opt (get request "target") "name");
           ("query", if truthy (get request "query")
                     then JSON_stringify G (get request "query") JUndefined
                     else JUndefined);
           ("subject", if truthy (get request "subject")
                       then JSON_stringify G (get request "subject") JUndefined
                       else JUndefined);
           ("metadata", JSON_stringify G
              (obj [("serviceName", svc_name service);
                    ("path", path);
                    ("method", get request "method");
                    ("url", get request "url");
                    ("data", get request "data");
                    ("params", get request "params");
                    ("subject", get request "subject");
                    ("query", get request "query");
                    ("event", get request "event");
                    ("headers", get request "headers")]) JUndefined);
           ("cacheOptions", JSON_stringify G requestOptions JUndefined)] in
    hasKeyResult <- safeCacheOperation
      (call (CacheHas key) (cache_has (cache this) key))
      "has"
      (obj [("key", key); ("serviceName", svc_name service)]) ;;
    let hasKey := and_then (get hasKeyResult "success") (get hasKeyResult "result") in
    (* [inl e]: the hit branch returned [e]; [inr cacheErrors]: control
       reaches the miss path with this [cacheErrors] array *)
    looked <-
      (if truthy hasKey then
         latency <- getElapsedMs startTime ;;
         hitStatsResult <- safeCacheOperation
           (call (RecordHit latency key metadata)
                 (recordHit (statistics this) latency key metadata))
           "recordHit"
           (obj [("key", key); ("latency", latency)]) ;;
         let cacheErrors := push_unless_success [] hitStatsResult in
         getResult <- safeCacheOperation
           (call (CacheSend "GET" (obj [("key", key)]))
                 (cache_send (cache this) "GET" (obj [("key", key)])))
           "get"
           (obj [("key", key)]) ;;
         if truthy (get getResult "success")
            && is_defined (get_opt (get getResult "result") "value")
         then ret (inl (envelope (get (get getResult "result") "value") key
                                 (JBool true) latency cacheErrors))
         else ret (inr cacheErrors)
       else ret (inr [])) ;;
    match looked with
    | inl hit => ret hit
    | inr cacheErrors =>
        catch
          (response <- call_method (ServiceSend request) "service.send"
                         (option_map (fun f => f request) (svc_send service)) ;;
           totalLatency <- getElapsedMs startTime ;;
           missStatsResult <- safeCacheOperation
             (call (RecordMiss totalLatency key metadata)
                   (recordMiss (statistics this) totalLatency key metadata))
             "recordMiss"
             (obj [("key", key); ("latency", totalLatency)]) ;;
           let cacheErrors := push_unless_success cacheErrors missStatsResult in
           let tags := resolveTags (tagResolver this)
                         (get requestOptions "tags")
                         response
                         (obj (extend (spread_into [] (get request "params"))
                                 [("user", get_opt (get request "user") "id");
                                  ("tenant", get request "tenant");
                                  ("locale", get request "locale");
                                  ("hash", createContentHash (keyManager this) request)])) in
           now <- Date_now_call ;;
           let wrappedValue :=
             obj [("value", response); ("tags", tags); ("timestamp", now)] in
           let data :=
             obj [("key", key);
                  ("value", wrappedValue);
                  ("ttl", or_else (get requestOptions "ttl") (num 0))] in
           setResult <- safeCacheOperation
             (call (CacheSend "SET" data) (cache_send (cache this) "SET" data))
             "set"
             (obj [("key", key); ("ttl", get requestOptions "ttl")]) ;;
           let cacheErrors := push_unless_success cacheErrors setResult in
           ret (envelope response key (JBool false) totalLatency cacheErrors))
          (fun serviceError =>
           log "error" [JStr "Service operation failed:";
                        obj [("error", err_message serviceError);
                             ("serviceName", svc_name service);
                             ("key", key)]] ;;
           raise serviceError)
    end.

(** [extractFunctionCacheOptions(req, options = {})] *)
Definition extractFunctionCacheOptions (this : CapOperations) (req options : JsValue)
  : JsValue :=
  let options := default_param options (obj []) in
  let annotated := if truthy (get req "query")
                   then cacheAnnotatedFunctions_bound this
                   else cacheAnnotatedFunctions_unbound this in
  let functionOptions :=
    match find (fun f => strict_eq (get f "name") (get req "event")) annotated with
    | Some f => f
    | None => JUndefined
    end in
  obj (spread_into
         [("ttl", or_else (get_opt functionOptions "@cache.ttl") (num 0));
          ("key", or_else (get_opt functionOptions "@cache.key") JNull);
          ("tags", or_else (get_opt functionOptions "@cache.tags") (JArr []))]
         (or_else options (obj []))).

(** [extractEntityCacheOptions(req, options = {})] *)
Definition extractEntityCacheOptions (req options : JsValue) : JsValue :=
  let options := default_param options (obj []) in
  obj (spread_into
         [("ttl", or_else (get_opt (get req "target") "@cache.ttl") (num 0));
          ("key", or_else (get_opt (get req "target") "@cache.key") JNull);
          ("tags", or_else (get_opt (get req "target") "@cache.tags") (JArr []))]
         (or_else options (obj []))).

(** [extractMetadataFromRequest(req)] *)
Definition extractMetadataFromRequest (req : JsValue) : M JsValue :=
  log "debug" [JSON_stringify G (get_opt (get req "http") "req") (num 2)] ;;
  ret (obj [("dataType", JStr (constructor_name req));
            ("serviceName", or_else (get_opt (get req "target") "name") (JStr ""));
            ("operation", JStr "RUN");
            ("operationType", JStr "READ_THROUGH");
            ("tenant", get req "tenant");
            ("user", get_opt (get req "user") "id");
            ("locale", get req "locale");
            ("target", get_opt (get req "target") "name");
            ("subject", if truthy (get req "subject")
                        then JSON_stringify G (get req "subject") JUndefined
                        else JUndefined);
            ("query", if truthy (get_opt (get req "query") "SELECT")
                      then JSON_stringify G (get_opt (get req "query") "SELECT") JUndefined
                      else JUndefined);
            ("metadata", JSON_stringify G
               (obj [("method", get req "method");
                     ("data", get req "data");
                     ("params", get req "params");
                     ("path", get_opt (get_opt (get req "http") "req") "path");
                     ("url", get_opt (get_opt (get req "http") "req") "url")]) JUndefined);
            ("cacheOptions", JSON_stringify G (get req "cacheOptions") JUndefined)]).

(** [req.event ? this.extractFunctionCacheOptions(req, arguments[2])
              : this.extractEntityCacheOptions(req, arguments[2])],
    the [req.cacheOptions] of [run] *)
Definition run_cacheOptions (this : CapOperations) (req arg3 : JsValue) : JsValue :=
  if truthy (get req "event")
  then extractFunctionCacheOptions this req arg3
  else extractEntityCacheOptions req arg3.

(** [{ ttl: 0, tags: [], ...(arguments[2] || {}) }], the [options] of [run]
    for a query *)
Definition run_options (arg3 : JsValue) : JsValue :=
  obj (spread_into [("ttl", num 0); ("tags", JArr [])] (or_else arg3 (obj []))).

(** [req.res?.setHeader(name, value)] *)
Definition setHeader_opt (req : JsValue) (name : string) (value : JsValue) : M unit :=
  if nullish (get req "res") then ret tt else emit (SetHeader name value).

(** [next()] where [next = arguments[1]] *)
Definition call_next (arg2 : Arg2) : M JsValue :=
  call_method NextHandler "next"
    match arg2 with
    | A2Function _ body => Some body
    | _ => None
    end.

(** [srv = arguments[1] || cds] *)
Definition srv_or_cds (arg2 : Arg2) : Srv :=
  match arg2 with
  | A2Service srv => srv
  | A2Function name _ => {| srv_name := JStr name; srv_run := None |}
  | A2Value v => if truthy v then {| srv_name := get v "name"; srv_run := None |} else cds G
  end.

(** [srv.run(query)] *)
Definition call_srv_run (srv : Srv) (query : JsValue) : M JsValue :=
  call_method (SrvRun query) "srv.run" (option_map (fun f => f query) (srv_run srv)).

(** The case "Request" / "ODataRequest" / "NoaRequest" of [run]. *)
Definition run_request (this : CapOperations) (arg1 : JsValue) (arg2 : Arg2)
    (arg3 : JsValue) : M JsValue :=
  let req := arg1 in
  if truthy (or_else (or_else (get_opt (get req "query") "UPDATE")
                    (get_opt (get req "query") "INSERT"))
                (get_opt (get req "query") "DELETE"))
  then call_next arg2
  else
    let cacheOptions := run_cacheOptions this req arg3 in
    let req := assign req "cacheOptions" cacheOptions in
    let cacheKey := createKey (keyManager this) req (obj []) (get cacheOptions "key") in
    let req := assign req "cacheKey" cacheKey in
    setHeader_opt req "x-sap-cap-cache-key" cacheKey ;;
    startTime <- process_hrtime None ;;
    getResult <- safeCacheOperation
      (call (CacheSend "GET" (obj [("key", cacheKey)]))
            (cache_send (cache this) "GET" (obj [("key", cacheKey)])))
      "get"
      (obj [("key", cacheKey); ("serviceName", get_opt (get req "target") "name")]) ;;
    let cacheHit := truthy (get getResult "success")
                    && is_defined (get_opt (get getResult "result") "value") in
    cacheLatency <- getElapsedMs startTime ;;
    metadata <- extractMetadataFromRequest req ;;
    if cacheHit then
      hitStatsResult <- safeCacheOperation
        (call (RecordHit cacheLatency cacheKey metadata)
              (recordHit (statistics this) cacheLatency cacheKey metadata))
        "recordHit"
        (obj [("key", cacheKey); ("latency", cacheLatency)]) ;;
      let cacheErrors := push_unless_success [] hitStatsResult in
      setHeader_opt req "x-sap-cap-cache" (JStr "hit") ;;
      ret (envelope (get (get getResult "result") "value") cacheKey
                    (JBool true) cacheLatency cacheErrors)
    else
      catch
        (response <- call_next arg2 ;;
         totalLatency <- getElapsedMs startTime ;;
         missStatsResult <- safeCacheOperation
           (call (RecordMiss totalLatency cacheKey metadata)
                 (recordMiss (statistics this) totalLatency cacheKey metadata))
           "recordMiss"
           (obj [("key", cacheKey); ("latency", totalLatency)]) ;;
         let cacheErrors := push_unless_success [] missStatsResult in
         setHeader_opt req "x-sap-cap-cache" (JStr "miss") ;;
         let tags := resolveTags (tagResolver this)
                       (get cacheOptions "tags")
                       response
                       (obj (extend (spread_into [] (get req "params"))
                               [("hash", createContentHash (keyManager this) req)])) in
         now <- Date_now_call ;;
         let wrappedValue :=
           obj [("value", response); ("tags", tags); ("timestamp", now)] in
         let data :=
           obj [("key", cacheKey);
                ("value", wrappedValue);
                ("ttl", or_else (get cacheOptions "ttl") (num 0))] in
         setResult <- safeCacheOperation
           (call (CacheSend "SET" data) (cache_send (cache this) "SET" data))
           "set"
           (obj [("key", cacheKey); ("ttl", get cacheOptions "ttl")]) ;;
         let cacheErrors := push_unless_success cacheErrors setResult in
         ret (envelope response cacheKey (JBool false) totalLatency cacheErrors))
        (fun serviceError =>
         log "error" [JStr "Service operation failed:";
                      obj [("error", err_message serviceError);
                           ("serviceName", get_opt (get req "target") "name");
                           ("key", cacheKey)]] ;;
         raise serviceError).

(** The case "cds.ql" of [run]. *)
Definition run_query (this : CapOperations) (arg1 : JsValue) (arg2 : Arg2)
    (arg3 : JsValue) : M JsValue :=
  let query := arg1 in
  let srv := srv_or_cds arg2 in
  if truthy (get query "SELECT") then
    let options := run_options arg3 in
    let cacheKey := createKey (keyManager this) query
                      (obj [("serviceName", srv_name srv)]) (get options "key") in
    let query := assign query "cacheKey" cacheKey in
    startTime <- process_hrtime None ;;
    hasCachedValueResult <- safeCacheOperation
      (call (CacheHas cacheKey) (cache_has (cache this) cacheKey))
      "has"
      (obj [("key", cacheKey); ("serviceName", srv_name srv)]) ;;
    let hasCachedValue := and_then (get hasCachedValueResult "success")
                              (get hasCachedValueResult "result") in
    cacheLatency <- getElapsedMs startTime ;;
    let ctx := cds_context G in
    let metadata :=
      obj [("dataType", JStr "Query");
           ("operation", JStr "SELECT");
           ("operationType", JStr "READ_THROUGH");
           ("user", get_opt (get_opt ctx "user") "id");
           ("tenant", get_opt ctx "tenant");
           ("locale", get_opt ctx "locale");
           ("query", JSON_stringify G (get query "SELECT") JUndefined);
           ("metadata", JSON_stringify G
              (obj [("query", get query "SELECT");
                    ("user", get_opt (get_opt ctx "user") "id");
                    ("tenant", get_opt ctx "tenant");
                    ("locale", get_opt ctx "locale");
                    ("serviceName", srv_name srv);
                    ("path", get query "path")]) JUndefined);
           ("cacheOptions", JSON_stringify G options JUndefined)] in
    looked <-
      (if truthy hasCachedValue then
         hitStatsResult <- safeCacheOperation
           (call (RecordHit cacheLatency cacheKey metadata)
                 (recordHit (statistics this) cacheLatency cacheKey metadata))
           "recordHit"
           (obj [("key", cacheKey); ("latency", cacheLatency)]) ;;
         let cacheErrors := push_unless_success [] hitStatsResult in
         getResult <- safeCacheOperation
           (call (CacheSend "GET" (obj [("key", cacheKey)]))
                 (cache_send (cache this) "GET" (obj [("key", cacheKey)])))
           "get"
           (obj [("key", cacheKey)]) ;;
         if truthy (get getResult "success")
            && is_defined (get_opt (get getResult "result") "value")
         then ret (inl (envelope (get (get getResult "result") "value") cacheKey
                                 (JBool true) cacheLatency cacheErrors))
         else ret (inr cacheErrors)
       else ret (inr [])) ;;
    match looked with
    | inl hit => ret hit
    | inr cacheErrors =>
        catch
          (data <- call_srv_run srv query ;;
           totalLatency <- getElapsedMs startTime ;;
           missStatsResult <- safeCacheOperation
             (call (RecordMiss totalLatency cacheKey metadata)
                   (recordMiss (statistics this) totalLatency cacheKey metadata))
             "recordMiss"
             (obj [("key", cacheKey); ("latency", totalLatency)]) ;;
           let cacheErrors := push_unless_success cacheErrors missStatsResult in
           let tags := resolveTags (tagResolver this)
                         (get options "tags")
                         data
                         (obj (extend (spread_into [] (get query "params"))
                                 [("hash", createKey (keyManager this) query
                                             (obj [("serviceName", srv_name srv);
                                                   ("template", JStr "{hash}")])
                                             JUndefined)])) in
           now <- Date_now_call ;;
           let wrappedValue :=
             obj [("value", data); ("tags", tags); ("timestamp", now)] in
           let payload :=
             obj [("key", cacheKey);
                  ("value", wrappedValue);
                  ("ttl", or_else (get options "ttl") (num 0))] in
           setResult <- safeCacheOperation
             (call (CacheSend "SET" payload) (cache_send (cache this) "SET" payload))
             "set"
             (obj [("key", cacheKey); ("ttl", get options "ttl")]) ;;
           let cacheErrors := push_unless_success cacheErrors setResult in
           log "debug" [JStr "REEEESULT";
                        obj [("setResult", setResult);
                             ("cacheErrors", JArr cacheErrors);
                             ("wrappedValue", wrappedValue)]] ;;
           ret (envelope data cacheKey (JBool false) totalLatency cacheErrors))
          (fun serviceError =>
           log "error" [JStr "Service operation failed:";
                        obj [("error", err_message serviceError);
                             ("serviceName", srv_name srv);
                             ("key", cacheKey)]] ;;
           raise serviceError)
    end
  else call_srv_run srv query.

(** [run()]: dispatch on [typeof arguments[0]] and on
    [arguments[0].constructor.name]. *)
Definition run (this : CapOperations) (arg1 : JsValue) (arg2 : Arg2) (arg3 : JsValue)
  : M JsValue :=
  if typeof arg1 =? "object" then
    ctor <- (if nullish arg1
             then raise (TypeError "Cannot read properties of null (reading 'constructor')")
             else ret (constructor_name arg1)) ;;
    if existsb (String.eqb ctor) ["Request"; "ODataRequest"; "NoaRequest"]
    then run_request this arg1 arg2 arg3
    else if ctor =? "cds.ql"
    then run_query this arg1 arg2 arg3
    else ret bypass_envelope
  else ret bypass_envelope.

(** ** [CachingService.run], the deprecated shortcut over [rt.run]

    [super_run] is [cds.Service.prototype.run]. *)
Definition CachingService_run (this : CapOperations) (super_run : JsValue -> Eff JsValue)
    (arg1 : JsValue) (arg2 : Arg2) (arg3 : JsValue) : M JsValue :=
  delegate <-
    (if negb (typeof arg1 =? "object") then
       ctor <- (if nullish arg1
                then raise (TypeError "Cannot read properties of undefined (reading 'constructor')")
                else ret (constructor_name arg1)) ;;
       ret (negb (existsb (String.eqb ctor) ["Request"; "NoaRequest"; "ODataRequest"; "cds.ql"]))
     else ret false) ;;
  if (delegate : bool) then call (SuperRun arg1) (super_run arg1)
  else
    result <- run this arg1 arg2 arg3 ;;
    member result "result".

(** ** Read-through calls and what a trace says about them *)

Inductive RtCall : Type :=
| RtSend (request : JsValue) (service : Service) (options : JsValue)
| RtRun (arg1 : JsValue) (arg2 : Arg2) (arg3 : JsValue).

Definition perform (this : CapOperations) (c : RtCall) : M JsValue :=
  match c with
  | RtSend request service options => send this request service options
  | RtRun arg1 arg2 arg3 => run this arg1 arg2 arg3
  end.

(** Run a computation from an environment with an empty trace. *)
Definition exec (A : Type) (m : M A) (e : Env) : Outcome A * World :=
  m {| trace := []; env := e |}.

End Coordinator.


(** ** Reading traces and envelopes *)

Definition is_has (c : Call) : bool :=
  match c with CacheHas _ => true | _ => false end.

Definition is_get (c : Call) : bool :=
  match c with CacheSend event _ => event =? "GET" | _ => false end.

Definition is_set (c : Call) : bool :=
  match c with CacheSend event _ => event =? "SET" | _ => false end.

(** Any call on the cache backend. *)
Definition is_backend (c : Call) : bool :=
  match c with CacheHas _ | CacheSend _ _ => true | _ => false end.

Definition is_recordHit (c : Call) : bool :=
  match c with RecordHit _ _ _ => true | _ => false end.

Definition is_recordMiss (c : Call) : bool :=
  match c with RecordMiss _ _ _ => true | _ => false end.

Definition is_statistics (c : Call) : bool := is_recordHit c || is_recordMiss c.

(** The origin: [service.send(request)], [next()] or [srv.run(query)]. *)
Definition is_origin (c : Call) : bool :=
  match c with ServiceSend _ | NextHandler | SrvRun _ => true | _ => false end.

Definition invoked (p : Call -> bool) (tr : list Event) : Prop :=
  exists ev, In ev tr /\ p (ev_call ev) = true.

Definition never_invoked (p : Call -> bool) (tr : list Event) : Prop :=
  forall ev, In ev tr -> p (ev_call ev) = false.

Definition threw (p : Call -> bool) (e : JsError) (tr : list Event) : Prop :=
  exists c, p c = true /\ In (mkEvent c (Thrown e)) tr.

Definition returned (p : Call -> bool) (v : JsValue) (tr : list Event) : Prop :=
  exists c, p c = true /\ In (mkEvent c (Returned v)) tr.

(** The number of calls of a kind in a trace. *)
Definition count (p : Call -> bool) (tr : list Event) : nat :=
  length (filter (fun ev => p (ev_call ev)) tr).

(** [v?.value], the payload of what a GET returned. *)
Definition cached_value (v : JsValue) : JsValue := get_opt v "value".

Definition env_cacheKey (v : JsValue) : JsValue := get v "cacheKey".
Definition env_metadata (v : JsValue) : JsValue := get v "metadata".
Definition env_hit (v : JsValue) : JsValue := get (get v "metadata") "hit".
Definition env_cacheErrors (v : JsValue) : list JsValue :=
  match get v "cacheErrors" with
  | JArr errors => errors
  | _ => []
  end.

(** A value has the shape of the response envelope. *)
Definition is_envelope (v : JsValue) : Prop :=
  exists result cacheKey hit latency cacheErrors,
    v = envelope result cacheKey (JBool hit) latency cacheErrors.

(** The [CacheErrorRecord] that [safeCacheOperation] builds for a failure. *)
Definition error_record (e : JsError) (operationName : string) (context : JsValue)
  : JsValue :=
  obj [("message", err_message e);
       ("operation", JStr operationName);
       ("context", context)].

Definition record_operation (r : JsValue) : JsValue := get r "operation".

Definition is_statistics_record (r : JsValue) : bool :=
  strict_eq (record_operation r) (JStr "recordHit")
  || strict_eq (record_operation r) (JStr "recordMiss").

(** ** A concrete deployment, for examples *)

Module Fixture.

Definition failure (message : string) : JsError :=
  {| err_name := "Error";
     err_message := JStr message;
     err_stack := JStr ("Error: " ++ message) |}.

(** A collaborator that behaves the same way whenever it is called. *)
Definition always (o : Outcome JsValue) : Eff unit JsValue := fun e => (o, e).

Definition scripted_cache (has_o get_o set_o : Outcome JsValue) : Cache unit :=
  {| cache_has := fun _ => always has_o;
     cache_send := fun event _ => if event =? "GET" then always get_o else always set_o |}.

Definition scripted_statistics (hit_o miss_o : Outcome JsValue) : Statistics unit :=
  {| recordHit := fun _ _ _ => always hit_o;
     recordMiss := fun _ _ _ => always miss_o |}.

Definition keys : KeyManager :=
  {| createKey := fun descriptor parts template =>
       if truthy template then template else JStr "key";
     createContentHash := fun _ => JStr "hash" |}.

Definition tagger : TagResolver :=
  {| resolveTags := fun spec _ _ => match spec with JArr _ => spec | _ => JArr [] end |}.

Definition ops (c : Cache unit) (s : Statistics unit) : CapOperations unit :=
  {| cache := c;
     keyManager := keys;
     statistics := s;
     tagResolver := tagger;
     cacheAnnotatedFunctions_bound := [];
     cacheAnnotatedFunctions_unbound := [] |}.

Definition globals : Globals unit :=
  {| cds_context := obj [("tenant", JStr "t1")];
     cds := {| srv_name := JStr "cds"; srv_run := None |};
     JSON_stringify := fun _ _ => JStr "{}";
     hrtime := fun _ e => ((0%Z, 1500000%Z), e);
     Date_now := fun e => (num 1700000000000, e) |}.

Definition ok : Outcome JsValue := Returned JUndefined.

Definition book : JsValue := obj [("ID", num 1); ("title", JStr "X")].

Definition entry (v : JsValue) : JsValue :=
  obj [("value", v); ("tags", JArr [JStr "books"]); ("timestamp", num 1600000000000)].

Definition books_service : Service unit :=
  {| svc_name := JStr "CatalogService";
     svc_send := Some (fun _ => always (Returned book)) |}.


Definition get_books : JsValue :=
  obj [("method", JStr "GET"); ("path", JStr "/Books"); ("tenant", JStr "t1")].

Definition post_books : JsValue :=
  obj [("method", JStr "post"); ("path", JStr "/Books"); ("data", book)].

Definition options : JsValue :=
  obj [("ttl", num 60); ("tags", JArr [JStr "books"])].

Definition read_request : JsValue :=
  JObj "Request" [("query", obj [("SELECT", obj [("from", JStr "Books")])]);
                  ("target", obj [("name", JStr "Books")])].

Definition update_request : JsValue :=
  JObj "Request" [("query", obj [("UPDATE", obj [("entity", JStr "Books")])])].

Definition select_query : JsValue :=
  JObj "cds.ql" [("SELECT", obj [("from", JStr "Books")])].

Definition insert_query : JsValue :=
  JObj "cds.ql" [("INSERT", obj [("into", JStr "Books")])].

(** A deployment whose backend holds nothing and where nothing fails. *)
Definition healthy : CapOperations unit :=
  ops (scripted_cache (Returned (JBool false)) ok ok) (scripted_statistics ok ok).


(** A deployment whose backend holds nothing and whose statistics fail. *)
Definition statistics_down : CapOperations unit :=
  ops (scripted_cache (Returned (JBool false)) ok ok)
      (scripted_statistics (Thrown (failure "no hits")) (Thrown (failure "no misses"))).

(** A deployment whose [has] reports true while GET returns nothing. *)
Definition stale : CapOperations unit :=
  ops (scripted_cache (Returned (JBool true)) ok ok) (scripted_statistics ok ok).

(** A deployment whose backend holds an entry for every key. *)
Definition warm : CapOperations unit :=
  ops (scripted_cache (Returned (JBool true)) (Returned (entry book)) ok)
      (scripted_statistics ok ok).

(** A deployment whose backend holds nothing and fails on SET. *)
Definition set_down : CapOperations unit :=
  ops (scripted_cache (Returned (JBool false)) ok (Thrown (failure "read only")))
      (scripted_statistics ok ok).

Definition handler (o : Outcome JsValue) : Arg2 unit := A2Function "next" (always o).

Definition db (o : Outcome JsValue) : Arg2 unit :=
  A2Service {| srv_name := JStr "db"; srv_run := Some (fun _ => always o) |}.

(** An in-memory backend: the environment is the store, an association
    list from keys to entries. *)
Definition store : Type := list (JsValue * JsValue).

Fixpoint lookup (key : JsValue) (s : store) : JsValue :=
  match s with
  | [] => JUndefined
  | (k, v) :: rest => if strict_eq k key then v else lookup key rest
  end.

Definition memory_cache : Cache store :=
  {| cache_has := fun key s => (Returned (JBool (is_defined (lookup key s))), s);
     cache_send := fun event data s =>
       if event =? "GET" then (Returned (lookup (get data "key") s), s)
       else (Returned JUndefined, (get data "key", get data "value") :: s) |}.

Definition memory_ops : CapOperations store :=
  {| cache := memory_cache;
     keyManager := keys;
     statistics := {| recordHit := fun _ _ _ s => (Returned JUndefined, s);
                      recordMiss := fun _ _ _ s => (Returned JUndefined, s) |};
     tagResolver := tagger;
     cacheAnnotatedFunctions_bound := [];
     cacheAnnotatedFunctions_unbound := [] |}.

Definition memory_globals : Globals store :=
  {| cds_context := obj [("tenant", JStr "t1")];
     cds := {| srv_name := JStr "cds"; srv_run := None |};
     JSON_stringify := fun _ _ => JStr "{}";
     hrtime := fun _ s => ((0%Z, 1500000%Z), s);
     Date_now := fun s => (num 1700000000000, s) |}.

Definition memory_service : Service store :=
  {| svc_name := JStr "CatalogService";
     svc_send := Some (fun _ s => (Returned book, s)) |}.

End Fixture.

(** ** Vocabulary of the properties *)

(** The outcome and the trace of a computation run from [e] with an empty
    trace. *)
Definition outcome_of (Env A : Type) (m : M Env A) (e : Env) : Outcome A :=
  fst (exec m e).

Definition trace_of (Env A : Type) (m : M Env A) (e : Env) : list Event :=
  trace (snd (exec m e)).

Definition final_env (Env A : Type) (m : M Env A) (e : Env) : Env :=
  env (snd (exec m e)).

(** [wp m Q w]: running [m] from [w] ends in an outcome and a world that
    satisfy [Q]. *)
Definition wp (Env A : Type) (m : M Env A) (Q : Outcome A -> World Env -> Prop)
    (w : World Env) : Prop :=
  Q (fst (m w)) (snd (m w)).

(** [rwp m1 m2 R w1 w2]: running [m1] from [w1] and [m2] from [w2] ends in
    outcomes and worlds related by [R]. *)
Definition rwp (Env A : Type) (m1 m2 : M Env A)
    (R : Outcome A -> World Env -> Outcome A -> World Env -> Prop)
    (w1 w2 : World Env) : Prop :=
  R (fst (m1 w1)) (snd (m1 w1)) (fst (m2 w2)) (snd (m2 w2)).

(** What [safeCacheOperation] returns for an operation that ended in [o]. *)
Definition safe_result (o : Outcome JsValue) (operationName : string)
    (context : JsValue) : JsValue :=
  match o with
  | Returned result =>
      obj [("success", JBool true); ("result", result); ("error", JNull)]
  | Thrown e =>
      obj [("success", JBool false);
           ("result", JNull);
           ("error", error_record e operationName (default_param context (obj [])))]
  end.

(** What [safeCacheOperation] logs for an operation that ended in [o]. *)
Definition safe_log (o : Outcome JsValue) (operationName : string)
    (context : JsValue) : Event :=
  mkEvent
    (Log (match o with Returned _ => "debug" | Thrown _ => "warn" end)
         (match o with
          | Returned result => [JStr "REEEESULT"; obj [("result", result)]]
          | Thrown e => [JStr ("Cache " ++ operationName ++ " failed:");
                         obj [("error", err_message e);
                              ("stack", err_stack e);
                              ("context", default_param context (obj []))]]
          end))
    (Returned JUndefined).

(** [r.success && r.result] is truthy for the result [r] of a guarded
    [has] that ended in [o]. *)
Definition reports_true (o : Outcome JsValue) : bool :=
  match o with
  | Returned v => truthy v
  | Thrown _ => false
  end.

(** [r.success && r.result?.value !== undefined] for the result [r] of a
    guarded GET that ended in [o]. *)
Definition yields_value (o : Outcome JsValue) : bool :=
  match o with
  | Returned r => is_defined (cached_value r)
  | Thrown _ => false
  end.

(** What a guarded operation that ended in [o] adds to [cacheErrors]. *)
Definition failure_records (o : Outcome JsValue) (operationName : string)
    (context : JsValue) : list JsValue :=
  match o with
  | Returned _ => []
  | Thrown e => [error_record e operationName (default_param context (obj []))]
  end.

(** [seconds * 1000 + nanoseconds / 1000000] *)
Definition elapsed_ms (t : Z * Z) : JsValue :=
  JNum (inject_Z (fst t) * inject_Z 1000 + inject_Z (snd t) / inject_Z 1000000)%Q.

(** The three shapes of a read-through call. *)
Definition request_constructor (arg1 : JsValue) : bool :=
  (typeof arg1 =? "object") && negb (nullish arg1)
  && existsb (String.eqb (constructor_name arg1)) ["Request"; "ODataRequest"; "NoaRequest"].

Definition query_constructor (arg1 : JsValue) : bool :=
  (typeof arg1 =? "object") && negb (nullish arg1)
  && (constructor_name arg1 =? "cds.ql").

Definition is_send_call (Env : Type) (c : RtCall Env) : bool :=
  match c with RtSend _ _ _ => true | RtRun _ _ _ => false end.


(** A request object whose method is POST, PUT, DELETE or PATCH in any
    letter case. *)
Definition write_method (request : JsValue) : bool :=
  match get request "method" with
  | JStr m => existsb (String.eqb (toUpperCase m)) ["POST"; "PUT"; "DELETE"; "PATCH"]
  | _ => false
  end.

(** A query object with an UPDATE, INSERT or DELETE part. *)
Definition write_query (q : JsValue) : bool :=
  truthy (get_opt q "UPDATE") || truthy (get_opt q "INSERT") || truthy (get_opt q "DELETE").

(** A call that represents a write operation. *)
Definition is_write_call (Env : Type) (c : RtCall Env) : bool :=
  match c with
  | RtSend request _ _ => write_method request
  | RtRun arg1 _ _ =>
      (request_constructor arg1 && write_query (get arg1 "query"))
      || (query_constructor arg1 && write_query arg1 && negb (truthy (get arg1 "SELECT")))
  end.


(** A statistics handler with the same effect on the environment that never
    throws. *)
Definition quiet (Env : Type) (f : Eff Env JsValue) : Eff Env JsValue :=
  fun e => (Returned JUndefined, snd (f e)).

Definition with_quiet_statistics (Env : Type) (this : CapOperations Env)
  : CapOperations Env :=
  {| cache := cache this;
     keyManager := keyManager this;
     statistics :=
       {| recordHit := fun latency key metadata =>
            quiet (recordHit (statistics this) latency key metadata);
          recordMiss := fun latency key metadata =>
            quiet (recordMiss (statistics this) latency key metadata) |};
     tagResolver := tagResolver this;
     cacheAnnotatedFunctions_bound := cacheAnnotatedFunctions_bound this;
     cacheAnnotatedFunctions_unbound := cacheAnnotatedFunctions_unbound this |}.

(** [v?.toUpperCase()] is defined for [null], [undefined] and strings. *)
Definition has_toUpperCase (v : JsValue) : bool :=
  match v with
  | JUndefined | JNull | JStr _ => true
  | _ => false
  end.

Definition upper_of (v : JsValue) : JsValue :=
  match v with
  | JStr s => JStr (toUpperCase s)
  | _ => JUndefined
  end.


Definition not_statistics_record (r : JsValue) : bool := negb (is_statistics_record r).

(** Two returned values are the same, or are envelopes that differ only in
    the records of failed statistics calls in [cacheErrors]. *)
Definition same_up_to_statistics_records (v1 v2 : JsValue) : Prop :=
  v1 = v2
  \/ exists result cacheKey hit latency cacheErrors,
       v1 = envelope result cacheKey hit latency cacheErrors
       /\ v2 = envelope result cacheKey hit latency
                 (filter not_statistics_record cacheErrors).

(** Two runs ended in the same environment, and threw the same error or
    returned the same value up to the statistics records. *)
Definition same_outcome (Env : Type) (o1 : Outcome JsValue) (w1 : World Env)
    (o2 : Outcome JsValue) (w2 : World Env) : Prop :=
  env w1 = env w2
  /\ match o1, o2 with
     | Returned v1, Returned v2 => same_up_to_statistics_records v1 v2
     | Thrown e1, Thrown e2 => e1 = e2
     | _, _ => False
     end.


(** A failed GET, or a GET whose result carries no [value]. *)
Definition get_yields_nothing (tr : list Event) : Prop :=
  (exists e, threw is_get e tr)
  \/ (exists r, returned is_get r tr /\ is_defined (cached_value r) = false).


(** ** The claims as the specification words them, where the code differs *)

Section AsStated.

Variable Env : Type.
Variable G : Globals Env.
Variable this : CapOperations Env.
Variable c : RtCall Env.
Variable e0 : Env.


(** Spec 7, StatisticsError: a failure of [recordHit] or [recordMiss] never
    appears in [cacheErrors]. *)
Definition statistics_failure_is_invisible : Prop :=
  forall e, threw is_statistics e (trace_of (perform G this c) e0) ->
    forall v, outcome_of (perform G this c) e0 = Returned v ->
      forall r, In r (env_cacheErrors v) -> is_statistics_record r = false.

(** Spec 8, mutation bypass: a write never touches the backend and is
    answered with [cacheKey: null] and [metadata: { hit: false, latency: 0 }]. *)
Definition write_returns_bypass_envelope : Prop :=
  is_write_call c = true ->
    never_invoked is_backend (trace_of (perform G this c) e0)
    /\ exists v,
         outcome_of (perform G this c) e0 = Returned v
         /\ env_cacheKey v = JNull
         /\ env_metadata v = obj [("hit", JBool false); ("latency", num 0)].


End AsStated.

(** ** More of [CapOperations]: the option extraction and the registry *)

Section Options.

Variable Env : Type.

(** [Object.assign(target, source)] *)
Definition Object_assign (target source : JsValue) : JsValue :=
  match target with
  | JObj ctor props => JObj ctor (spread_into props source)
  | _ => target
  end.

(** [extractCacheOptions(req, options = {})] *)
Definition extractCacheOptions (this : CapOperations Env) (req options : JsValue)
  : M Env JsValue :=
  let options := default_param options (obj []) in
  let extractedOptions := obj (spread_into [] options) in
  target <- member req "target" ;;
  extractedOptions <-
    (if truthy (and_then target (get target "name"))
     then
       let functionOptions := extractFunctionCacheOptions this req options in
       ret (Object_assign extractedOptions functionOptions)
     else ret extractedOptions) ;;
  if truthy (and_then (get req "target") (get (get req "target") "name"))
  then
    let entityOptions := extractEntityCacheOptions req options in
    ret (Object_assign extractedOptions entityOptions)
  else ret extractedOptions.

(** [CachingService.addCachableFunction(name, options, isBound = false)]:
    it pushes [{ name, options }] onto one of the two registries of the
    [CapOperations] instance of the service. *)
Definition addCachableFunction (capOperations : CapOperations Env)
    (name options isBound : JsValue) : CapOperations Env :=
  let isBound := default_param isBound (JBool false) in
  let entry := obj [("name", name); ("options", options)] in
  {| cache := cache capOperations;
     keyManager := keyManager capOperations;
     statistics := statistics capOperations;
     tagResolver := tagResolver capOperations;
     cacheAnnotatedFunctions_bound :=
       if truthy isBound
       then cacheAnnotatedFunctions_bound capOperations ++ [entry]
       else cacheAnnotatedFunctions_bound capOperations;
     cacheAnnotatedFunctions_unbound :=
       if truthy isBound
       then cacheAnnotatedFunctions_unbound capOperations
       else cacheAnnotatedFunctions_unbound capOperations ++ [entry] |}.

End Options.

(** The arguments of one call of [addCachableFunction]. *)
Record Registration : Type := {
  reg_name : JsValue;
  reg_options : JsValue;
  reg_isBound : JsValue
}.

(** A sequence of calls of [addCachableFunction]. *)
Definition register (Env : Type) (capOperations : CapOperations Env)
    (registrations : list Registration) : CapOperations Env :=
  fold_left (fun this r => addCachableFunction this (reg_name r) (reg_options r) (reg_isBound r))
            registrations capOperations.

(** What [addCachableFunction] pushes: an object [{ name, options }]. *)
Definition is_registry_entry (f : JsValue) : Prop :=
  exists name options, f = obj [("name", name); ("options", options)].

(** A registry none of whose entries is [null] or [undefined], so that
    [find(f => f.name === req.event)] reads [f.name] without throwing. *)
Definition holds_objects (registry : list JsValue) : Prop :=
  Forall (fun f => nullish f = false) registry.

(** The names of the properties of an object, in insertion order. *)
Definition names_of (props : list (string * JsValue)) : list string := map fst props.

(** ** The service: [CachingService] *)

Section Service.

Variable Env : Type.
Variable G : Globals Env.

(** A call on a collaborator of the service; it leaves no event in the trace
    of the coordinator. *)
Definition invoke (A : Type) (f : Eff Env A) : M Env A :=
  fun w => let (o, e') := f (env w) in (o, {| trace := trace w; env := e' |}).

(** [args[1]] of [CachingService.send]: a service object, or a value whose
    members are data (a value with a callable [send] is a service). *)
Inductive SendTarget : Type :=
| ToService (service : Service Env)
| ToValue (v : JsValue).

(** [args[1].send], as the condition of [CachingService.send] reads it *)
Definition target_send (target : SendTarget) : M Env bool :=
  match target with
  | ToService service =>
      ret match svc_send service with Some _ => true | None => false end
  | ToValue v => s <- member v "send" ;; ret (truthy s)
  end.

(** [typeof args[1]] *)
Definition target_typeof (target : SendTarget) : string :=
  match target with
  | ToService _ => "object"
  | ToValue v => typeof v
  end.

(** [args[1]] as [rt.send] uses it: calling a member that is data throws a
    TypeError. *)
Definition target_service (target : SendTarget) : Service Env :=
  match target with
  | ToService service => service
  | ToValue v =>
      {| svc_name := get v "name";
         svc_send :=
           if truthy (get v "send")
           then Some (fun _ e => (Thrown (TypeError "service.send is not a function"), e))
           else None |}
  end.

(** [CachingService.send(...args)], the deprecated shortcut over [rt.send];
    [super_send] is [cds.Service.prototype.send]. *)
Definition CachingService_send (this : CapOperations Env)
    (super_send : JsValue -> SendTarget -> JsValue -> Eff Env JsValue)
    (arg1 : JsValue) (arg2 : SendTarget) (arg3 : JsValue) : M Env JsValue :=
  delegate <-
    (if negb (typeof arg1 =? "object") then ret true
     else
       has_send <- target_send arg2 ;;
       if negb has_send then ret true
       else if negb (target_typeof arg2 =? "object") then ret true
       else
         method <- member arg1 "method" ;;
         ret (negb (strict_eq method (JStr "GET")))) ;;
  if (delegate : bool) then invoke (super_send arg1 arg2 arg3)
  else
    result <- send G this arg1 (target_service arg2) arg3 ;;
    member result "result".

(** *** The handlers of the events "SET" and "GET", registered in [init] *)

(** [JSON.parse(text)]: the parsed value, or nothing when it throws a
    SyntaxError. *)
Variable JSON_parse : string -> option JsValue.

(** The conversion to a string that a template literal applies. *)
Variable ToString : JsValue -> string.

(** The store that [createStore] returns ([this.cache] of the service), used
    through [set(key, value, ttl)] and [get(key)]. *)
Record Store : Type := {
  store_set : JsValue -> JsValue -> JsValue -> Eff Env JsValue;
  store_get : JsValue -> Eff Env JsValue
}.

(** [handleSet(event)] *)
Definition handleSet (store : Store) (event : JsValue) : M Env JsValue :=
  data <- member event "data" ;;
  key <- member data "key" ;;
  log "debug" [JStr ("SET " ++ ToString key)] ;;
  let data :=
    if typeof (get data "value") =? "object"
    then assign data "value" (JSON_stringify G (get data "value") JUndefined)
    else data in
  invoke (store_set store (get data "key") (get data "value")
                    (or_else (get data "ttl") (num 0))) ;;
  ret JUndefined.

(** [handleGet(event)] *)
Definition handleGet (store : Store) (event : JsValue) : M Env JsValue :=
  data <- member event "data" ;;
  key <- member data "key" ;;
  value <- invoke (store_get store key) ;;
  log "debug" [JStr ("GET " ++ ToString key)] ;;
  match value with
  | JStr text =>
      match JSON_parse text with
      | Some parsed => ret parsed
      | None => ret value
      end
  | _ => ret value
  end.

(** A store in which setting a value under [key] succeeds, and which yields
    that value for [key] right afterwards. *)
Definition keeps_what_was_set (store : Store) (key : JsValue) : Prop :=
  forall value ttl e,
    exists r e', store_set store key value ttl e = (Returned r, e')
                 /\ fst (store_get store key e') = Returned value.

End Service.

(** ** More vocabulary: keys, latencies, headers, logs and order *)

(** The cache key that a call on the backend or on the statistics carries. *)
Definition call_key (c : Call) : option JsValue :=
  match c with
  | CacheHas key => Some key
  | CacheSend _ data => Some (get data "key")
  | RecordHit _ key _ => Some key
  | RecordMiss _ key _ => Some key
  | _ => None
  end.

Definition env_latency (v : JsValue) : JsValue := get (get v "metadata") "latency".

(** What [process.hrtime] returned, as the array that the code destructures. *)
Definition hrtime_value (t : Z * Z) : Outcome JsValue :=
  Returned (JArr [num (fst t); num (snd t)]).

(** The message and the operation name of a failed [recordHit],
    [recordMiss] or SET. *)
Definition failed_operation (ev : Event) : list (JsValue * JsValue) :=
  match ev_outcome ev, ev_call ev with
  | Thrown e, RecordHit _ _ _ => [(err_message e, JStr "recordHit")]
  | Thrown e, RecordMiss _ _ _ => [(err_message e, JStr "recordMiss")]
  | Thrown e, CacheSend event _ =>
      if event =? "SET" then [(err_message e, JStr "set")] else []
  | _, _ => []
  end.

(** The message and the operation name that a record of [cacheErrors]
    reports. *)
Definition reported (r : JsValue) : JsValue * JsValue :=
  (get r "message", get r "operation").

Definition is_header (c : Call) : bool :=
  match c with SetHeader _ _ => true | _ => false end.






(** The events of a trace that precede its first call of a kind. *)
Fixpoint before (p : Call -> bool) (tr : list Event) : list Event :=
  match tr with
  | [] => []
  | ev :: rest => if p (ev_call ev) then [] else ev :: before p rest
  end.

(** ** A backend that keeps what it is given

    [stored key entry e]: in the environment [e] the backend holds [entry]
    under [key].  A backend is coherent for [stored] when a SET that returns
    stores the value under the key of its payload, when [has] says so and GET
    returns the entry for a key under which something defined is stored, and
    when neither of them, nor the clock, nor [recordHit] removes an entry. *)
Record Coherent (Env : Type) (G : Globals Env) (this : CapOperations Env)
    (stored : JsValue -> JsValue -> Env -> Prop) : Prop := {
  set_stores : forall data e r e',
    cache_send (cache this) "SET" data e = (Returned r, e') ->
    stored (get data "key") (get data "value") e';
  has_finds : forall key entry e,
    stored key entry e -> is_defined entry = true ->
    exists v e', cache_has (cache this) key e = (Returned v, e')
                 /\ truthy v = true /\ stored key entry e';
  get_finds : forall key entry e,
    stored key entry e ->
    exists e', cache_send (cache this) "GET" (obj [("key", key)]) e = (Returned entry, e');
  clock_keeps : forall key entry start e,
    stored key entry e -> stored key entry (snd (hrtime G start e));
  recordHit_keeps : forall key entry latency k metadata e,
    stored key entry e ->
    stored key entry (snd (recordHit (statistics this) latency k metadata e))
}.

(** ** Samples for the examples of the further properties *)

Module Sample.

(** A first [send] for the books on a deployment that holds nothing. *)
Definition cold : RtCall unit :=
  RtSend Fixture.get_books Fixture.books_service Fixture.options.


Definition nameless : Service unit :=
  {| svc_name := JStr "Remote"; svc_send := None |}.


(** A registry entry that carries its annotations itself. *)
Definition annotated : JsValue :=
  obj [("name", JStr "topBooks"); ("@cache.ttl", num 300)].

Definition with_function : CapOperations unit :=
  {| cache := cache Fixture.healthy;
     keyManager := keyManager Fixture.healthy;
     statistics := statistics Fixture.healthy;
     tagResolver := tagResolver Fixture.healthy;
     cacheAnnotatedFunctions_bound := [annotated];
     cacheAnnotatedFunctions_unbound := [] |}.

Definition top_books : Registration :=
  {| reg_name := JStr "topBooks";
     reg_options := obj [("@cache.ttl", num 300)];
     reg_isBound := JBool true |}.

(** A bound function call on an entity. *)
Definition function_request : JsValue :=
  JObj "Request" [("event", JStr "topBooks");
                  ("query", obj [("SELECT", obj [("from", JStr "Books")])]);
                  ("target", obj [("name", JStr "Books"); ("@cache.ttl", num 30)])].

Definition super_send (arg1 : JsValue) (arg2 : SendTarget unit) (arg3 : JsValue)
  : Eff unit JsValue :=
  Fixture.always (Returned (JStr "dispatched")).

Definition super_run (arg1 : JsValue) : Eff unit JsValue :=
  Fixture.always (Returned (JStr "ran")).

(** A store in memory: the environment is the list of the entries set. *)
Definition memory : Store Fixture.store :=
  {| store_set := fun key value ttl s => (Returned (JBool true), (key, value) :: s);
     store_get := fun key s => (Returned (Fixture.lookup key s), s) |}.

(** The two texts that the sample parser knows. *)
Definition parse (text : string) : option JsValue :=
  if text =? "42" then Some (num 42)
  else if text =? "{}" then Some (obj [])
  else None.

Definition show (v : JsValue) : string :=
  match v with JStr s => s | _ => "[object Object]" end.

(** A backend in memory whose entries are filed under the text of their
    key. *)
Definition shelf : Type := list (string * JsValue).

Definition shelf_cache : Cache shelf :=
  {| cache_has := fun key s => (Returned (JBool (is_defined (assoc (show key) s))), s);
     cache_send := fun event data s =>
       if event =? "GET" then (Returned (assoc (show (get data "key")) s), s)
       else (Returned JUndefined, (show (get data "key"), get data "value") :: s) |}.

Definition shelf_ops : CapOperations shelf :=
  {| cache := shelf_cache;
     keyManager := Fixture.keys;
     statistics := {| recordHit := fun _ _ _ s => (Returned JUndefined, s);
                      recordMiss := fun _ _ _ s => (Returned JUndefined, s) |};
     tagResolver := Fixture.tagger;
     cacheAnnotatedFunctions_bound := [];
     cacheAnnotatedFunctions_unbound := [] |}.

Definition shelf_globals : Globals shelf :=
  {| cds_context := obj [("tenant", JStr "t1")];
     cds := {| srv_name := JStr "cds"; srv_run := None |};
     JSON_stringify := fun _ _ => JStr "{}";
     hrtime := fun _ s => ((0%Z, 1500000%Z), s);
     Date_now := fun s => (num 1700000000000, s) |}.

Definition shelf_books : RtCall shelf :=
  RtSend Fixture.get_books
         {| svc_name := JStr "CatalogService";
            svc_send := Some (fun _ s => (Returned Fixture.book, s)) |}
         Fixture.options.

Definition on_shelf (key entry : JsValue) (s : shelf) : Prop :=
  assoc (show key) s = entry.

End Sample.

(** * Properties *)

(** ** Rules for [wp] *)

Section WpRules.

Variable Env : Type.
Variable G : Globals Env.

Lemma wp_ret A (a : A) (Q : Outcome A -> World Env -> Prop) w :
  Q (Returned a) w -> wp (ret a) Q w.
Proof. exact (fun H => H). Qed.

Lemma wp_raise A (e : JsError) (Q : Outcome A -> World Env -> Prop) w :
  Q (Thrown e) w -> wp (raise e) Q w.
Proof. exact (fun H => H). Qed.

Lemma wp_bind A B (m : M Env A) (k : A -> M Env B) (Q : Outcome B -> World Env -> Prop) w :
  wp m (fun o w' => match o with
                    | Returned a => wp (k a) Q w'
                    | Thrown e => Q (Thrown e) w'
                    end) w ->
  wp (bind m k) Q w.
Proof.
  unfold wp. cbn. destruct (m w) as [[a | e] w']; cbn; auto.
Qed.

Lemma wp_catch A (m : M Env A) (h : JsError -> M Env A)
    (Q : Outcome A -> World Env -> Prop) w :
  wp m (fun o w' => match o with
                    | Returned a => Q (Returned a) w'
                    | Thrown e => wp (h e) Q w'
                    end) w ->
  wp (catch m h) Q w.
Proof.
  unfold wp. cbn. destruct (m w) as [[a | e] w']; cbn; auto.
Qed.

Lemma wp_call c (f : Eff Env JsValue) (Q : Outcome JsValue -> World Env -> Prop) w :
  (forall o e', Q o {| trace := trace w ++ [mkEvent c o]; env := e' |}) ->
  wp (call c f) Q w.
Proof.
  intros H. unfold wp, call. destruct (f (env w)) as [o e']. apply H.
Qed.

Lemma wp_call_method c name (f : option (Eff Env JsValue))
    (Q : Outcome JsValue -> World Env -> Prop) w :
  (forall o e', Q o {| trace := trace w ++ [mkEvent c o]; env := e' |}) ->
  wp (call_method c name f) Q w.
Proof.
  intros H. destruct f; apply wp_call, H.
Qed.

Lemma wp_emit c (Q : Outcome unit -> World Env -> Prop) w :
  Q (Returned tt) {| trace := trace w ++ [mkEvent c (Returned JUndefined)]; env := env w |} ->
  wp (emit c) Q w.
Proof. exact (fun H => H). Qed.

Lemma wp_process_hrtime start (Q : Outcome (Z * Z) -> World Env -> Prop) w :
  (forall t e',
     Q (Returned t)
       {| trace := trace w ++ [mkEvent (ProcessHrtime start)
                                       (Returned (JArr [num (fst t); num (snd t)]))];
          env := e' |}) ->
  wp (process_hrtime G start) Q w.
Proof.
  intros H. unfold wp, process_hrtime. destruct (hrtime G start (env w)). apply H.
Qed.

Lemma wp_Date_now (Q : Outcome JsValue -> World Env -> Prop) w :
  (forall t e',
     Q (Returned t) {| trace := trace w ++ [mkEvent DateNow (Returned t)]; env := e' |}) ->
  wp (Date_now_call G) Q w.
Proof.
  intros H. unfold wp, Date_now_call. destruct (Date_now G (env w)). apply H.
Qed.

Lemma wp_getElapsedMs startTime (Q : Outcome JsValue -> World Env -> Prop) w :
  (forall t e',
     Q (Returned (elapsed_ms t))
       {| trace := trace w ++ [mkEvent (ProcessHrtime (Some startTime))
                                       (Returned (JArr [num (fst t); num (snd t)]))];
          env := e' |}) ->
  wp (getElapsedMs G startTime) Q w.
Proof.
  intros H. unfold getElapsedMs. apply wp_bind, wp_process_hrtime.
  intros [seconds nanoseconds] e'. apply wp_ret, (H (seconds, nanoseconds)).
Qed.

Lemma wp_member v p (Q : Outcome JsValue -> World Env -> Prop) w :
  (nullish v = true -> forall e, Q (Thrown e) w) ->
  (nullish v = false -> Q (Returned (get v p)) w) ->
  wp (member v p) Q w.
Proof.
  intros Ht Hr. unfold member.
  destruct (nullish v); [apply wp_raise, Ht | apply wp_ret, Hr]; reflexivity.
Qed.

Lemma wp_toUpperCase_opt v (Q : Outcome JsValue -> World Env -> Prop) w :
  (has_toUpperCase v = false -> forall e, Q (Thrown e) w) ->
  (has_toUpperCase v = true -> Q (Returned (upper_of v)) w) ->
  wp (toUpperCase_opt v) Q w.
Proof.
  intros Ht Hr.
  destruct v; cbn; first [apply wp_ret, Hr | apply wp_raise, Ht]; reflexivity.
Qed.

(** [safeCacheOperation] around one collaborator call, as an equation. *)
Lemma safeCacheOperation_call c (f : Eff Env JsValue) operationName context w :
  safeCacheOperation (call c f) operationName context w =
  (Returned (safe_result (fst (f (env w))) operationName context),
   {| trace := trace w ++ [mkEvent c (fst (f (env w)));
                           safe_log (fst (f (env w))) operationName context];
      env := snd (f (env w)) |}).
Proof.
  unfold safeCacheOperation, call. cbn.
  destruct (f (env w)) as [[v | e] e']; cbn; rewrite <- app_assoc; reflexivity.
Qed.

Lemma wp_safe c (f : Eff Env JsValue) operationName context
    (Q : Outcome JsValue -> World Env -> Prop) w :
  (forall o e',
     Q (Returned (safe_result o operationName context))
       {| trace := trace w ++ [mkEvent c o; safe_log o operationName context];
          env := e' |}) ->
  wp (safeCacheOperation (call c f) operationName context) Q w.
Proof.
  intros H. unfold wp. rewrite safeCacheOperation_call. apply H.
Qed.

End WpRules.

(** ** The decisions taken on the result of a guarded operation *)

Lemma has_decision o operationName context :
  truthy (and_then (get (safe_result o operationName context) "success")
              (get (safe_result o operationName context) "result"))
  = reports_true o.
Proof. destruct o; reflexivity. Qed.

Lemma get_decision o operationName context :
  truthy (get (safe_result o operationName context) "success")
  && is_defined (get_opt (get (safe_result o operationName context) "result") "value")
  = yields_value o.
Proof. destruct o; reflexivity. Qed.

Lemma push_safe cacheErrors o operationName context :
  push_unless_success cacheErrors (safe_result o operationName context)
  = (cacheErrors ++ failure_records o operationName context)%list.
Proof.
  destruct o; cbn; [rewrite app_nil_r |]; reflexivity.
Qed.



(** ** Symbolic execution *)

Ltac wp_beta := cbn beta iota delta [trace env app].

(** A path whose conditions contradict each other. *)
Ltac prune :=
  try match goal with
      | H1 : ?x = true, H2 : ?x = false |- _ => exfalso; congruence
      end.

Ltac wp_step :=
  lazymatch goal with
  | |- wp (let x := ?v in @?b x) ?Q ?w =>
      tryif first [ is_var v | lazymatch v with context [safe_result] => idtac end ]
      then change (wp (b v) Q w)
      else (let y := fresh x in pose (y := v); change (wp (b y) Q w))
  | |- wp (bind _ _) _ _ => apply wp_bind
  | |- wp (catch _ _) _ _ => apply wp_catch
  | |- wp (ret _) _ _ => apply wp_ret
  | |- wp (raise _) _ _ => apply wp_raise
  | |- wp (safeCacheOperation (call _ _) _ _) _ _ => apply wp_safe; intros ? ?
  | |- wp (call _ _) _ _ => apply wp_call; intros ? ?
  | |- wp (call_method _ _ _) _ _ => apply wp_call_method; intros ? ?
  | |- wp (log _ _) _ _ => apply wp_emit
  | |- wp (emit _) _ _ => apply wp_emit
  | |- wp (process_hrtime _ _) _ _ => apply wp_process_hrtime; intros ? ?
  | |- wp (Date_now_call _) _ _ => apply wp_Date_now; intros ? ?
  | |- wp (getElapsedMs _ _) _ _ => apply wp_getElapsedMs; intros ? ?
  | |- wp (member _ _) _ _ => apply wp_member; [intros ? ? | intros ?]
  | |- wp (toUpperCase_opt _) _ _ => apply wp_toUpperCase_opt; [intros ? ? | intros ?]
  | |- wp (if truthy (and_then (get (safe_result _ _ _) _) _) then _ else _) _ _ =>
      rewrite has_decision
  | |- wp (if truthy (get (safe_result _ _ _) _) && _ then _ else _) _ _ =>
      rewrite get_decision
  | |- wp (if ?b then _ else _) _ _ =>
      first [ match goal with H : b = _ |- _ => rewrite H end | destruct b eqn:? ]
  | |- wp (match ?x with _ => _ end) _ _ => destruct x eqn:?
  | |- match ?o with Returned _ => _ | Thrown _ => _ end => destruct o
  end; wp_beta; prune.

(** Run [send] or [run] symbolically: one goal per path, each with an
    explicit trace. *)
Ltac wp_run :=
  cbv beta iota delta [perform send run run_request run_query call_next call_srv_run
                       setHeader_opt extractMetadataFromRequest];
  repeat wp_step.

(** Case analysis on the membership of an event in an explicit trace. *)
Ltac in_cases H :=
  cbn [In] in H;
  repeat lazymatch type of H with
    | _ \/ _ => destruct H as [H | H]
    | False => destruct H
    end.

(** Use an equation between two events. *)
Ltac event_eq H :=
  unfold safe_log in H; first [ discriminate H | injection H as ? ?; subst ].


(** Use [threw p e tr] or [returned p v tr] on an explicit trace. *)
Ltac use_event H :=
  let c := fresh "c" in
  let Hp := fresh "Hp" in
  let Hin := fresh "Hin" in
  destruct H as (c & Hp & Hin); in_cases Hin; event_eq Hin; try discriminate Hp; clear Hp.

(** Use [invoked p tr] on an explicit trace. *)
Ltac use_invoked H :=
  let ev := fresh "ev" in
  let Hp := fresh "Hp" in
  let Hin := fresh "Hin" in
  destruct H as (ev & Hin & Hp); in_cases Hin; subst ev; try discriminate Hp; clear Hp.

(** Prove [never_invoked p tr] on an explicit trace. *)
Ltac prove_never :=
  let ev := fresh "ev" in
  let Hin := fresh "Hin" in
  intros ev Hin; in_cases Hin; subst ev; reflexivity.

(** Prove [In x tr] on an explicit trace. *)
Ltac prove_in :=
  cbn [In]; solve [repeat first [left; reflexivity | right]].

(** Prove [invoked p tr], [threw p e tr] or [returned p v tr] on an explicit
    trace by trying its events in turn. *)
Ltac prove_invoked :=
  unfold invoked;
  match goal with
  | |- exists ev, In ev ?tr /\ _ =>
      let rec try_events l :=
        lazymatch l with
        | ?x :: ?rest => first [ exists x; split; [prove_in | reflexivity] | try_events rest ]
        end in
      try_events tr
  end.

(** Prove [threw p e tr] or [returned p v tr] on an explicit trace by trying
    its events in turn. *)
Ltac prove_event :=
  unfold threw, returned;
  match goal with
  | |- exists c, _ /\ In _ ?tr =>
      let rec try_events l :=
        lazymatch l with
        | {| ev_call := ?c0; ev_outcome := _ |} :: ?rest =>
            first [ exists c0; split; [reflexivity | prove_in] | try_events rest ]
        | _ :: ?rest => try_events rest
        end in
      try_events tr
  end.

(** ** The model at work *)

(** The scenario of spec 8 on the in-memory backend: the first [send] misses,
    asks the origin and stores an entry tagged ["books"]; the second one, run
    from the environment the first one left, hits and returns the same
    result without asking the origin. *)
Lemma send_round_trip :
  let first := send Fixture.memory_globals Fixture.memory_ops Fixture.get_books
                 Fixture.memory_service Fixture.options in
  outcome_of first []
  = Returned (envelope Fixture.book (JStr "key") (JBool false)
                (elapsed_ms (0%Z, 1500000%Z)) [])
  /\ final_env first []
     = [(JStr "key",
         obj [("value", Fixture.book);
              ("tags", JArr [JStr "books"]);
              ("timestamp", num 1700000000000)])]
  /\ outcome_of first (final_env first [])
     = Returned (envelope Fixture.book (JStr "key") (JBool true)
                   (elapsed_ms (0%Z, 1500000%Z)) [])
  /\ never_invoked is_origin (trace_of first (final_env first [])).
Proof.
  cbv zeta. repeat split; try reflexivity.
  intros ev Hin. vm_compute in Hin. in_cases Hin; subst ev; reflexivity.
Qed.

(** ** The resilience wrapper *)


(** ** Origin failures *)



(** ** Writes and unhandled arguments *)

Lemma truthy_or a b : truthy (or_else a b) = truthy a || truthy b.
Proof.
  unfold or_else. destruct (truthy a) eqn:E; [rewrite E |]; reflexivity.
Qed.

(** The guard of [run] for a request is [write_query] of its query. *)
Lemma write_query_guard q :
  truthy (or_else (or_else (get_opt q "UPDATE") (get_opt q "INSERT")) (get_opt q "DELETE"))
  = write_query q.
Proof.
  rewrite !truthy_or. reflexivity.
Qed.

Lemma request_constructor_inv arg1 :
  request_constructor arg1 = true ->
  (typeof arg1 =? "object") = true
  /\ nullish arg1 = false
  /\ existsb (String.eqb (constructor_name arg1)) ["Request"; "ODataRequest"; "NoaRequest"]
     = true.
Proof.
  unfold request_constructor. intros H.
  apply andb_true_iff in H. destruct H as [H Hnames].
  apply andb_true_iff in H. destruct H as [Htype Hnull].
  apply negb_true_iff in Hnull. auto.
Qed.

Lemma query_constructor_inv arg1 :
  query_constructor arg1 = true ->
  (typeof arg1 =? "object") = true
  /\ nullish arg1 = false
  /\ existsb (String.eqb (constructor_name arg1)) ["Request"; "ODataRequest"; "NoaRequest"]
     = false
  /\ (constructor_name arg1 =? "cds.ql") = true.
Proof.
  unfold query_constructor. intros H.
  apply andb_true_iff in H. destruct H as [H Hname].
  apply andb_true_iff in H. destruct H as [Htype Hnull].
  apply negb_true_iff in Hnull. repeat split; auto.
  apply String.eqb_eq in Hname. rewrite Hname. reflexivity.
Qed.

(** The claim C4 as the specification words it fails for [run]: a request
    with an UPDATE query is answered with what [next()] returned, here the
    number 1, which has no [cacheKey]. *)
Lemma run_write_returns_no_envelope :
  ~ write_returns_bypass_envelope Fixture.globals Fixture.healthy
      (RtRun Fixture.update_request (Fixture.handler (Returned (num 1))) JUndefined) tt.
Proof.
  intros H. destruct (H eq_refl) as (_ & v & Hv & Hkey & _).
  vm_compute in Hv. inversion Hv; subst v. discriminate Hkey.
Qed.

(** C4, amended.  A call that represents a write never invokes the backend
    ([has], GET, SET) nor the statistics.  For [send] the coordinator invokes
    nothing at all and returns [{ result: null, cacheKey: null, metadata:
    { hit: false, latency: 0 }, cacheErrors: [] }]; for [run] it passes the
    call to the origin, once. *)
Theorem write_bypasses_backend :
  forall (Env : Type) (G : Globals Env) (this : CapOperations Env) (c : RtCall Env)
         (e0 : Env),
    is_write_call c = true ->
    never_invoked is_backend (trace_of (perform G this c) e0)
    /\ never_invoked is_statistics (trace_of (perform G this c) e0)
    /\ (if is_send_call c
        then outcome_of (perform G this c) e0 = Returned bypass_envelope
             /\ trace_of (perform G this c) e0 = []
        else count is_origin (trace_of (perform G this c) e0) = 1).
Proof.
  intros Env G this c e0 Hwrite.
  change (wp (perform G this c)
            (fun o w => never_invoked is_backend (trace w)
                        /\ never_invoked is_statistics (trace w)
                        /\ (if is_send_call c
                            then o = Returned bypass_envelope /\ trace w = []
                            else count is_origin (trace w) = 1))
            {| trace := []; env := e0 |}).
  destruct c as [request service options | arg1 arg2 arg3]; cbn [is_write_call] in Hwrite.
  - assert (Hn : nullish request = false)
      by (destruct request; try reflexivity; discriminate Hwrite).
    unfold write_method in Hwrite.
    destruct (get request "method") as [ | | | | m | | | ] eqn:Hm; try discriminate Hwrite.
    cbv beta iota delta [perform send].
    do 3 wp_step. rewrite Hm. do 2 wp_step.
    + discriminate.
    + cbn [upper_of includes]. rewrite Hwrite. cbn [orb]. wp_step.
      repeat split; prove_never.
  - apply orb_true_iff in Hwrite. destruct Hwrite as [Hwrite | Hwrite].
    + apply andb_true_iff in Hwrite. destruct Hwrite as [Hctor Hq].
      apply request_constructor_inv in Hctor. destruct Hctor as (Htype & Hnull & Hnames).
      rewrite <- write_query_guard in Hq.
      wp_run. repeat split; try prove_never.
    + apply andb_true_iff in Hwrite. destruct Hwrite as [Hwrite Hselect].
      apply andb_true_iff in Hwrite. destruct Hwrite as [Hctor Hq].
      apply query_constructor_inv in Hctor.
      destruct Hctor as (Htype & Hnull & Hnames & Hname).
      apply negb_true_iff in Hselect.
      wp_run. repeat split; try prove_never.
Qed.

Lemma write_bypasses_backend_witness :
  never_invoked is_backend
    (trace_of (perform Fixture.globals Fixture.healthy
                 (RtSend Fixture.post_books Fixture.books_service Fixture.options)) tt)
  /\ never_invoked is_statistics
       (trace_of (perform Fixture.globals Fixture.healthy
                    (RtSend Fixture.post_books Fixture.books_service Fixture.options)) tt)
  /\ outcome_of (perform Fixture.globals Fixture.healthy
                   (RtSend Fixture.post_books Fixture.books_service Fixture.options)) tt
     = Returned bypass_envelope
  /\ trace_of (perform Fixture.globals Fixture.healthy
                 (RtSend Fixture.post_books Fixture.books_service Fixture.options)) tt
     = [].
Proof.
  apply (write_bypasses_backend Fixture.globals Fixture.healthy
           (RtSend Fixture.post_books Fixture.books_service Fixture.options) tt).
  reflexivity.
Defined.

(** C5.  [run] answers a write with the bare result of the origin, not with
    an envelope: for a request with an UPDATE query it returns what [next()]
    returned, for an INSERT query what [srv.run(query)] returned.  Here both
    return the number 1, which is no envelope, and [CachingService.run], which
    reads [.result] of what [run] returned, answers [undefined]; [send]
    answers the same kind of call with the bypass envelope. *)
Theorem run_write_returns_bare_result :
  outcome_of (run Fixture.globals Fixture.healthy Fixture.update_request
                (Fixture.handler (Returned (num 1))) JUndefined) tt
  = Returned (num 1)
  /\ outcome_of (run Fixture.globals Fixture.healthy Fixture.insert_query
                   (Fixture.db (Returned (num 1))) JUndefined) tt
     = Returned (num 1)
  /\ ~ is_envelope (num 1)
  /\ outcome_of (CachingService_run Fixture.globals Fixture.healthy
                   (fun _ => Fixture.always Fixture.ok) Fixture.update_request
                   (Fixture.handler (Returned (num 1))) JUndefined) tt
     = Returned JUndefined
  /\ outcome_of (send Fixture.globals Fixture.healthy Fixture.post_books
                   Fixture.books_service Fixture.options) tt
     = Returned bypass_envelope.
Proof.
  repeat split; try reflexivity.
  intros (result & cacheKey & hit & latency & cacheErrors & H). discriminate H.
Qed.

(** C9 at [null]: [typeof null] is "object", so [run(null)] reads
    [null.constructor] and throws a TypeError before anything else happens. *)
Theorem run_null_throws :
  forall (Env : Type) (G : Globals Env) (this : CapOperations Env) (arg2 : Arg2 Env)
         (arg3 : JsValue) (e0 : Env),
    exec (run G this JNull arg2 arg3) e0
    = (Thrown (TypeError "Cannot read properties of null (reading 'constructor')"),
       {| trace := []; env := e0 |}).
Proof.
  reflexivity.
Qed.


(** ** Backend failures *)




(** ** The miss path *)



(** C10.  In every [send] call in which [has] returned a truthy value, the
    GET yielded no value and the origin returned, [recordHit] and [recordMiss]
    are each invoked once, and the returned envelope says [hit: false]. *)
Theorem stale_has_records_hit_and_miss :
  forall (Env : Type) (G : Globals Env) (this : CapOperations Env)
         (request : JsValue) (service : Service Env) (options : JsValue) (e0 : Env)
         (v response : JsValue),
    returned is_has v (trace_of (send G this request service options) e0) ->
    truthy v = true ->
    get_yields_nothing (trace_of (send G this request service options) e0) ->
    returned is_origin response (trace_of (send G this request service options) e0) ->
    count is_recordHit (trace_of (send G this request service options) e0) = 1
    /\ count is_recordMiss (trace_of (send G this request service options) e0) = 1
    /\ exists val,
         outcome_of (send G this request service options) e0 = Returned val
         /\ env_hit val = JBool false.
Proof.
  intros Env G this request service options e0 v response.
  change (wp (send G this request service options)
            (fun o w =>
               returned is_has v (trace w) ->
               truthy v = true ->
               get_yields_nothing (trace w) ->
               returned is_origin response (trace w) ->
               count is_recordHit (trace w) = 1
               /\ count is_recordMiss (trace w) = 1
               /\ exists val, o = Returned val /\ env_hit val = JBool false)
            {| trace := []; env := e0 |}).
  wp_run.
  all: intros Hhas Htruthy _ Horigin; use_event Horigin; use_event Hhas.
  all: cbn [reports_true] in *; try congruence.
  all: repeat split; eexists; split; reflexivity.
Qed.

Lemma stale_has_records_hit_and_miss_witness :
  count is_recordHit
    (trace_of (send Fixture.globals Fixture.stale Fixture.get_books
                 Fixture.books_service Fixture.options) tt) = 1
  /\ count is_recordMiss
       (trace_of (send Fixture.globals Fixture.stale Fixture.get_books
                    Fixture.books_service Fixture.options) tt) = 1
  /\ exists val,
       outcome_of (send Fixture.globals Fixture.stale Fixture.get_books
                     Fixture.books_service Fixture.options) tt = Returned val
       /\ env_hit val = JBool false.
Proof.
  apply (stale_has_records_hit_and_miss Fixture.globals Fixture.stale Fixture.get_books
           Fixture.books_service Fixture.options tt
           (v := JBool true) (response := Fixture.book)).
  - exists (CacheHas (JStr "key")). split; [reflexivity | vm_compute; prove_in].
  - reflexivity.
  - right. exists JUndefined. split; [| reflexivity].
    exists (CacheSend "GET" (obj [("key", JStr "key")])).
    split; [reflexivity | vm_compute; prove_in].
  - exists (ServiceSend Fixture.get_books). split; [reflexivity | vm_compute; prove_in].
Defined.

(** ** The lookup *)




(** ** Statistics failures *)

(** *** Rules for [rwp] *)

Section RwpRules.

Variable Env : Type.
Variable G : Globals Env.

Lemma rwp_ret A (a1 a2 : A) (R : Outcome A -> World Env -> Outcome A -> World Env -> Prop) w1 w2 :
  R (Returned a1) w1 (Returned a2) w2 -> rwp (ret a1) (ret a2) R w1 w2.
Proof. exact (fun H => H). Qed.

Lemma rwp_raise A (e1 e2 : JsError)
    (R : Outcome A -> World Env -> Outcome A -> World Env -> Prop) w1 w2 :
  R (Thrown e1) w1 (Thrown e2) w2 -> rwp (raise e1) (raise e2) R w1 w2.
Proof. exact (fun H => H). Qed.

Lemma rwp_bind A B (m1 m2 : M Env A) (k1 k2 : A -> M Env B)
    (R : Outcome B -> World Env -> Outcome B -> World Env -> Prop) w1 w2 :
  rwp m1 m2 (fun o1 w1' o2 w2' =>
               match o1, o2 with
               | Returned a1, Returned a2 => rwp (k1 a1) (k2 a2) R w1' w2'
               | Thrown e1, Thrown e2 => R (Thrown e1) w1' (Thrown e2) w2'
               | _, _ => False
               end) w1 w2 ->
  rwp (bind m1 k1) (bind m2 k2) R w1 w2.
Proof.
  unfold rwp. cbn.
  destruct (m1 w1) as [[a1 | e1] w1'], (m2 w2) as [[a2 | e2] w2']; cbn; tauto.
Qed.

Lemma rwp_catch A (m1 m2 : M Env A) (h1 h2 : JsError -> M Env A)
    (R : Outcome A -> World Env -> Outcome A -> World Env -> Prop) w1 w2 :
  rwp m1 m2 (fun o1 w1' o2 w2' =>
               match o1, o2 with
               | Returned a1, Returned a2 => R (Returned a1) w1' (Returned a2) w2'
               | Thrown e1, Thrown e2 => rwp (h1 e1) (h2 e2) R w1' w2'
               | _, _ => False
               end) w1 w2 ->
  rwp (catch m1 h1) (catch m2 h2) R w1 w2.
Proof.
  unfold rwp. cbn.
  destruct (m1 w1) as [[a1 | e1] w1'], (m2 w2) as [[a2 | e2] w2']; cbn; tauto.
Qed.

Lemma rwp_call c1 c2 (f : Eff Env JsValue)
    (R : Outcome JsValue -> World Env -> Outcome JsValue -> World Env -> Prop) w1 w2 :
  env w1 = env w2 ->
  (forall o e', R o {| trace := trace w1 ++ [mkEvent c1 o]; env := e' |}
                  o {| trace := trace w2 ++ [mkEvent c2 o]; env := e' |}) ->
  rwp (call c1 f) (call c2 f) R w1 w2.
Proof.
  intros He H. unfold rwp, call. rewrite He. destruct (f (env w2)) as [o e']. apply H.
Qed.

Lemma rwp_call_method c1 c2 name (f : option (Eff Env JsValue))
    (R : Outcome JsValue -> World Env -> Outcome JsValue -> World Env -> Prop) w1 w2 :
  env w1 = env w2 ->
  (forall o e', R o {| trace := trace w1 ++ [mkEvent c1 o]; env := e' |}
                  o {| trace := trace w2 ++ [mkEvent c2 o]; env := e' |}) ->
  rwp (call_method c1 name f) (call_method c2 name f) R w1 w2.
Proof.
  intros He H. destruct f; cbn [call_method]; apply rwp_call; assumption.
Qed.

Lemma rwp_emit c1 c2
    (R : Outcome unit -> World Env -> Outcome unit -> World Env -> Prop) w1 w2 :
  R (Returned tt) {| trace := trace w1 ++ [mkEvent c1 (Returned JUndefined)]; env := env w1 |}
    (Returned tt) {| trace := trace w2 ++ [mkEvent c2 (Returned JUndefined)]; env := env w2 |} ->
  rwp (emit c1) (emit c2) R w1 w2.
Proof. exact (fun H => H). Qed.

Lemma rwp_process_hrtime start
    (R : Outcome (Z * Z) -> World Env -> Outcome (Z * Z) -> World Env -> Prop) w1 w2 :
  env w1 = env w2 ->
  (forall t e' tr1 tr2,
     R (Returned t) {| trace := tr1; env := e' |} (Returned t) {| trace := tr2; env := e' |}) ->
  rwp (process_hrtime G start) (process_hrtime G start) R w1 w2.
Proof.
  intros He H. unfold rwp, process_hrtime. rewrite He.
  destruct (hrtime G start (env w2)). apply H.
Qed.

Lemma rwp_Date_now
    (R : Outcome JsValue -> World Env -> Outcome JsValue -> World Env -> Prop) w1 w2 :
  env w1 = env w2 ->
  (forall t e' tr1 tr2,
     R (Returned t) {| trace := tr1; env := e' |} (Returned t) {| trace := tr2; env := e' |}) ->
  rwp (Date_now_call G) (Date_now_call G) R w1 w2.
Proof.
  intros He H. unfold rwp, Date_now_call. rewrite He.
  destruct (Date_now G (env w2)). apply H.
Qed.

Lemma rwp_getElapsedMs startTime
    (R : Outcome JsValue -> World Env -> Outcome JsValue -> World Env -> Prop) w1 w2 :
  env w1 = env w2 ->
  (forall t e' tr1 tr2,
     R (Returned (elapsed_ms t)) {| trace := tr1; env := e' |}
       (Returned (elapsed_ms t)) {| trace := tr2; env := e' |}) ->
  rwp (getElapsedMs G startTime) (getElapsedMs G startTime) R w1 w2.
Proof.
  intros He H. unfold getElapsedMs. apply rwp_bind, rwp_process_hrtime; [exact He |].
  intros [seconds nanoseconds] e' tr1 tr2. apply rwp_ret, (H (seconds, nanoseconds)).
Qed.

Lemma rwp_member v p
    (R : Outcome JsValue -> World Env -> Outcome JsValue -> World Env -> Prop) w1 w2 :
  (forall e, R (Thrown e) w1 (Thrown e) w2) ->
  R (Returned (get v p)) w1 (Returned (get v p)) w2 ->
  rwp (member v p) (member v p) R w1 w2.
Proof.
  intros Ht Hr. unfold member.
  destruct (nullish v); [apply rwp_raise, Ht | apply rwp_ret, Hr].
Qed.

Lemma rwp_toUpperCase_opt v
    (R : Outcome JsValue -> World Env -> Outcome JsValue -> World Env -> Prop) w1 w2 :
  (forall e, R (Thrown e) w1 (Thrown e) w2) ->
  (forall u, R (Returned u) w1 (Returned u) w2) ->
  rwp (toUpperCase_opt v) (toUpperCase_opt v) R w1 w2.
Proof.
  intros Ht Hr. destruct v; cbn; first [apply rwp_ret, Hr | apply rwp_raise, Ht].
Qed.

Lemma rwp_safe c1 c2 (f : Eff Env JsValue) operationName context1 context2
    (R : Outcome JsValue -> World Env -> Outcome JsValue -> World Env -> Prop) w1 w2 :
  env w1 = env w2 ->
  (forall o e' tr1 tr2,
     R (Returned (safe_result o operationName context1)) {| trace := tr1; env := e' |}
       (Returned (safe_result o operationName context2)) {| trace := tr2; env := e' |}) ->
  rwp (safeCacheOperation (call c1 f) operationName context1)
      (safeCacheOperation (call c2 f) operationName context2) R w1 w2.
Proof.
  intros He H. unfold rwp. rewrite !safeCacheOperation_call. cbn [fst snd].
  rewrite He. apply H.
Qed.

Lemma rwp_safe_quiet c1 c2 (f : Eff Env JsValue) operationName context1 context2
    (R : Outcome JsValue -> World Env -> Outcome JsValue -> World Env -> Prop) w1 w2 :
  env w1 = env w2 ->
  (forall o e' tr1 tr2,
     R (Returned (safe_result o operationName context1)) {| trace := tr1; env := e' |}
       (Returned (safe_result (Returned JUndefined) operationName context2))
       {| trace := tr2; env := e' |}) ->
  rwp (safeCacheOperation (call c1 f) operationName context1)
      (safeCacheOperation (call c2 (quiet f)) operationName context2) R w1 w2.
Proof.
  intros He H. unfold rwp. rewrite !safeCacheOperation_call. cbn [fst snd quiet].
  rewrite He. apply H.
Qed.

End RwpRules.

Lemma is_statistics_record_error_record e operationName context :
  is_statistics_record (error_record e operationName context)
  = (operationName =? "recordHit") || (operationName =? "recordMiss").
Proof. reflexivity. Qed.

Lemma filter_failure_records o operationName context :
  filter not_statistics_record (failure_records o operationName context)
  = if (operationName =? "recordHit") || (operationName =? "recordMiss")
    then []
    else failure_records o operationName context.
Proof.
  destruct o as [v | e]; cbn [failure_records filter].
  - destruct ((operationName =? "recordHit") || (operationName =? "recordMiss")); reflexivity.
  - unfold not_statistics_record. rewrite is_statistics_record_error_record.
    destruct ((operationName =? "recordHit") || (operationName =? "recordMiss")); reflexivity.
Qed.

(** Whether [recordHit] and [recordMiss] throw or return does not influence
    the run: with statistics that have the same effect and never throw, the
    call ends in the same environment with the same error, or with the same
    value up to the statistics records of [cacheErrors]. *)
Lemma statistics_outcome_is_irrelevant :
  forall (Env : Type) (G : Globals Env) (this : CapOperations Env) (c : RtCall Env)
         (e0 : Env),
    rwp (perform G this c) (perform G (with_quiet_statistics this) c) (@same_outcome Env)
        {| trace := []; env := e0 |} {| trace := []; env := e0 |}.
Proof.
  intros Env G this c e0.
  destruct c as [request service options | arg1 arg2 arg3].
  all: cbv beta iota delta [perform send run run_request run_query call_next call_srv_run
                            setHeader_opt extractMetadataFromRequest run_cacheOptions
                            extractFunctionCacheOptions].
  all: cbn beta iota delta [with_quiet_statistics cache keyManager statistics tagResolver
                            recordHit recordMiss cacheAnnotatedFunctions_bound
                            cacheAnnotatedFunctions_unbound].
  (* both runs in lockstep, one rule per construct *)
  all: repeat
         (lazymatch goal with
          | |- rwp (let x := ?v in @?b1 x) (let x' := ?v in @?b2 x') ?R ?w1 ?w2 =>
              tryif first [ is_var v | lazymatch v with context [safe_result] => idtac end ]
              then change (rwp (b1 v) (b2 v) R w1 w2)
              else (let y := fresh x in pose (y := v); change (rwp (b1 y) (b2 y) R w1 w2))
          | |- rwp (let x := ?v1 in @?b1 x) (let x' := ?v2 in @?b2 x') ?R ?w1 ?w2 =>
              change (rwp (b1 v1) (b2 v2) R w1 w2)
          | |- rwp (bind _ _) (bind _ _) _ _ _ => apply rwp_bind
          | |- rwp (catch _ _) (catch _ _) _ _ _ => apply rwp_catch
          | |- rwp (ret _) (ret _) _ _ _ => apply rwp_ret
          | |- rwp (raise _) (raise _) _ _ _ => apply rwp_raise
          | |- rwp (safeCacheOperation (call _ _) _ _)
                   (safeCacheOperation (call _ (quiet _)) _ _) _ _ _ =>
              apply rwp_safe_quiet; [reflexivity | intros ? ? ? ?]
          | |- rwp (safeCacheOperation (call _ _) _ _)
                   (safeCacheOperation (call _ _) _ _) _ _ _ =>
              apply rwp_safe; [reflexivity | intros ? ? ? ?]
          | |- rwp (call _ _) (call _ _) _ _ _ => apply rwp_call; [reflexivity | intros ? ?]
          | |- rwp (call_method _ _ _) (call_method _ _ _) _ _ _ =>
              apply rwp_call_method; [reflexivity | intros ? ?]
          | |- rwp (log _ _) (log _ _) _ _ _ => apply rwp_emit
          | |- rwp (emit _) (emit _) _ _ _ => apply rwp_emit
          | |- rwp (process_hrtime _ _) (process_hrtime _ _) _ _ _ =>
              apply rwp_process_hrtime; [reflexivity | intros ? ? ? ?]
          | |- rwp (Date_now_call _) (Date_now_call _) _ _ _ =>
              apply rwp_Date_now; [reflexivity | intros ? ? ? ?]
          | |- rwp (getElapsedMs _ _) (getElapsedMs _ _) _ _ _ =>
              apply rwp_getElapsedMs; [reflexivity | intros ? ? ? ?]
          | |- rwp (member _ _) (member _ _) _ _ _ => apply rwp_member; [intros ? |]
          | |- rwp (toUpperCase_opt _) (toUpperCase_opt _) _ _ _ =>
              apply rwp_toUpperCase_opt; intros ?
          | |- rwp (if truthy (and_then (get (safe_result _ _ _) _) _) then _ else _)
                   _ _ _ _ =>
              rewrite !has_decision
          | |- rwp (if truthy (get (safe_result _ _ _) _) && _ then _ else _) _ _ _ _ =>
              rewrite !get_decision
          | |- rwp (if ?b then _ else _) (if ?b then _ else _) _ _ _ => destruct b eqn:?
          | |- rwp (match ?x with _ => _ end) (match ?x with _ => _ end) _ _ _ =>
              destruct x eqn:?
          | |- match ?o with Returned _ => _ | Thrown _ => _ end => destruct o
          end;
          cbn beta iota delta [trace env app]).
  (* the ends of the paths *)
  all: try match goal with |- same_outcome ?o _ ?o _ => is_var o; destruct o end.
  all: split; [reflexivity |].
  all: first [ reflexivity
             | left; reflexivity
             | right; do 5 eexists; split; [reflexivity |]; f_equal;
               rewrite !push_safe, ?filter_app, ?filter_failure_records;
               cbn [failure_records filter app String.eqb Ascii.eqb Bool.eqb orb];
               rewrite ?app_nil_r; reflexivity ].
Qed.

(** A statistics call that threw left its record in the [cacheErrors] of the
    returned envelope. *)
Lemma statistics_failure_is_recorded :
  forall (Env : Type) (G : Globals Env) (this : CapOperations Env) (c : RtCall Env)
         (e0 : Env) (e : JsError),
    threw is_statistics e (trace_of (perform G this c) e0) ->
    forall v, outcome_of (perform G this c) e0 = Returned v ->
      exists r,
        In r (env_cacheErrors v)
        /\ is_statistics_record r = true
        /\ get r "message" = err_message e.
Proof.
  intros Env G this c e0 e.
  change (wp (perform G this c)
            (fun o w =>
               threw is_statistics e (trace w) ->
               forall v, o = Returned v ->
                 exists r,
                   In r (env_cacheErrors v)
                   /\ is_statistics_record r = true
                   /\ get r "message" = err_message e)
            {| trace := []; env := e0 |}).
  destruct c as [request service options | arg1 arg2 arg3]; wp_run.
  all: intros Hthrew v Hout; rewrite ?push_safe in Hout; use_event Hthrew;
       inversion Hout; subst v.
  all: unfold env_cacheErrors;
       cbn [get assoc envelope obj String.eqb Ascii.eqb Bool.eqb failure_records app].
  all: eexists; split; [rewrite ?in_app_iff; cbn [In]; auto 10 | split; reflexivity].
Qed.

(** The claim C3 as the specification words it fails: when [recordMiss]
    throws, [send] returns its record in [cacheErrors]. *)
Lemma statistics_failure_visible :
  ~ statistics_failure_is_invisible Fixture.globals Fixture.statistics_down
      (RtSend Fixture.get_books Fixture.books_service Fixture.options) tt.
Proof.
  intros H.
  assert (Hthrew : threw is_statistics (Fixture.failure "no misses")
                     (trace_of (perform Fixture.globals Fixture.statistics_down
                                  (RtSend Fixture.get_books Fixture.books_service
                                          Fixture.options)) tt)).
  { eexists (RecordMiss _ _ _). split; [reflexivity | vm_compute; prove_in]. }
  specialize (H _ Hthrew _ eq_refl).
  vm_compute in H.
  specialize (H _ (or_introl eq_refl)). discriminate H.
Qed.

(** C3, amended.  An exception raised inside [recordHit] or [recordMiss]
    never makes the call fail and changes no field of the response envelope
    other than [cacheErrors]: a run in which the statistics throw ends as the
    run in which they do not, with the same error or with the same [result],
    [cacheKey] and [metadata], and with the same [cacheErrors] up to the
    statistics records.  The exception does appear in [cacheErrors], as a
    record with its message and the operation "recordHit" or "recordMiss". *)
Theorem statistics_failure_recorded_only :
  forall (Env : Type) (G : Globals Env) (this : CapOperations Env) (c : RtCall Env)
         (e0 : Env),
    (final_env (perform G this c) e0
     = final_env (perform G (with_quiet_statistics this) c) e0
     /\ match outcome_of (perform G this c) e0,
              outcome_of (perform G (with_quiet_statistics this) c) e0 with
        | Returned v1, Returned v2 => same_up_to_statistics_records v1 v2
        | Thrown e1, Thrown e2 => e1 = e2
        | _, _ => False
        end)
    /\ (forall e, threw is_statistics e (trace_of (perform G this c) e0) ->
          forall v, outcome_of (perform G this c) e0 = Returned v ->
            exists r,
              In r (env_cacheErrors v)
              /\ is_statistics_record r = true
              /\ get r "message" = err_message e).
Proof.
  intros Env G this c e0. split.
  - exact (statistics_outcome_is_irrelevant G this c e0).
  - intros e. apply statistics_failure_is_recorded.
Qed.

Lemma statistics_failure_recorded_only_witness :
  exists v r,
    outcome_of (perform Fixture.globals Fixture.statistics_down
                  (RtSend Fixture.get_books Fixture.books_service Fixture.options)) tt
    = Returned v
    /\ In r (env_cacheErrors v)
    /\ is_statistics_record r = true
    /\ get r "message" = JStr "no misses".
Proof.
  destruct (statistics_failure_recorded_only Fixture.globals Fixture.statistics_down
              (RtSend Fixture.get_books Fixture.books_service Fixture.options) tt)
    as [_ Hrecorded].
  assert (Hthrew : threw is_statistics (Fixture.failure "no misses")
                     (trace_of (perform Fixture.globals Fixture.statistics_down
                                  (RtSend Fixture.get_books Fixture.books_service
                                          Fixture.options)) tt)).
  { eexists (RecordMiss _ _ _). split; [reflexivity | vm_compute; prove_in]. }
  destruct (Hrecorded _ Hthrew _ eq_refl) as (r & Hin & Hstat & Hmessage).
  eexists. exists r.
  split; [reflexivity | split; [exact Hin | split; [exact Hstat | exact Hmessage]]].
Defined.

(** * Further properties of the code *)

(** ** [send] before the lookup *)

(** X1.  A [send] to a service that has no [send] method, for a request
    whose method is a string or missing, invokes nothing (no lookup, no
    origin, no log) and returns [{ result: null, cacheKey: null, metadata:
    { hit: false, latency: 0 }, cacheErrors: [] }], whatever the method is. *)
Theorem send_to_service_without_send :
  forall (Env : Type) (G : Globals Env) (this : CapOperations Env)
         (request : JsValue) (service : Service Env) (options : JsValue) (e0 : Env),
    nullish request = false ->
    has_toUpperCase (get request "method") = true ->
    svc_send service = None ->
    exec (send G this request service options) e0
    = (Returned bypass_envelope, {| trace := []; env := e0 |}).
Proof.
  intros Env G this request service options e0 Hreq Hmethod Hsend.
  unfold exec, send. cbv zeta.
  unfold member. rewrite Hreq. cbn.
  destruct (get request "method"); try discriminate Hmethod; cbn;
    rewrite Hsend, ?orb_true_r; reflexivity.
Qed.

Lemma send_to_service_without_send_witness :
  exec (send Fixture.globals Fixture.healthy Fixture.get_books Sample.nameless
          Fixture.options) tt
  = (Returned bypass_envelope, {| trace := []; env := tt |}).
Proof.
  apply send_to_service_without_send; reflexivity.
Defined.



(** ** Invariants of one read-through call *)

(** X3.  One read-through call uses one cache key: every call on the backend
    ([has], GET, SET) and on the statistics ([recordHit], [recordMiss]) carries
    the same key, and an envelope returned after a lookup reports that key as
    its [cacheKey]. *)
Theorem one_key_per_call :
  forall (Env : Type) (G : Globals Env) (this : CapOperations Env) (c : RtCall Env)
         (e0 : Env),
    exists key,
      (forall ev k, In ev (trace_of (perform G this c) e0) ->
                    call_key (ev_call ev) = Some k -> k = key)
      /\ (invoked is_backend (trace_of (perform G this c) e0) ->
          forall v, outcome_of (perform G this c) e0 = Returned v -> env_cacheKey v = key).
Proof.
  intros Env G this c e0.
  change (wp (perform G this c)
            (fun o w =>
               exists key,
                 (forall ev k, In ev (trace w) -> call_key (ev_call ev) = Some k -> k = key)
                 /\ (invoked is_backend (trace w) ->
                     forall v, o = Returned v -> env_cacheKey v = key))
            {| trace := []; env := e0 |}).
  destruct c as [request service options | arg1 arg2 arg3]; wp_run.
  all: match goal with
       | key := createKey _ _ _ _ |- _ => exists key
       | |- _ => exists JUndefined
       end.
  all: split;
       [ intros ev k Hin Hk; in_cases Hin; subst ev; cbn in Hk;
         first [discriminate Hk | injection Hk as <-; reflexivity]
       | intros Hb v Hout;
         first [ use_invoked Hb; fail
               | injection Hout as <-; reflexivity
               | discriminate Hout ] ].
Qed.

(** X4.  The latency that an envelope reports after a lookup is measured
    from one start: [process.hrtime()] is read before any call on the backend
    or on the origin, and the reported latency is [seconds * 1000 +
    nanoseconds / 1000000] of a later reading [process.hrtime(start)] relative
    to what that first reading returned. *)
Theorem latency_is_measured_from_the_start :
  forall (Env : Type) (G : Globals Env) (this : CapOperations Env) (c : RtCall Env)
         (e0 : Env) (v : JsValue),
    invoked is_backend (trace_of (perform G this c) e0) ->
    outcome_of (perform G this c) e0 = Returned v ->
    exists t0 t earlier later,
      trace_of (perform G this c) e0
      = (earlier ++ mkEvent (ProcessHrtime None) (hrtime_value t0) :: later)%list
      /\ never_invoked is_backend earlier
      /\ never_invoked is_origin earlier
      /\ In (mkEvent (ProcessHrtime (Some t0)) (hrtime_value t)) later
      /\ env_latency v = elapsed_ms t.
Proof.
  intros Env G this c e0 v.
  change (wp (perform G this c)
            (fun o w =>
               invoked is_backend (trace w) ->
               o = Returned v ->
               exists t0 t earlier later,
                 trace w
                 = (earlier ++ mkEvent (ProcessHrtime None) (hrtime_value t0) :: later)%list
                 /\ never_invoked is_backend earlier
                 /\ never_invoked is_origin earlier
                 /\ In (mkEvent (ProcessHrtime (Some t0)) (hrtime_value t)) later
                 /\ env_latency v = elapsed_ms t)
            {| trace := []; env := e0 |}).
  destruct c as [request service options | arg1 arg2 arg3]; wp_run.
  all: intros Hb Hout; try solve [use_invoked Hb]; clear Hb.
  all: try discriminate Hout.
  all: injection Hout as <-.
  all: unfold hrtime_value.
  all: do 2 eexists.
  all: first [ exists []; eexists; split; [reflexivity |]
             | eexists [_]; eexists; split; [reflexivity |] ].
  all: split; [prove_never |].
  all: split; [prove_never |].
  all: split; [ | reflexivity]; prove_in.
Qed.

Lemma latency_is_measured_from_the_start_witness :
  exists t0 t earlier later,
    trace_of (perform Fixture.globals Fixture.healthy Sample.cold) tt
    = (earlier ++ mkEvent (ProcessHrtime None) (hrtime_value t0) :: later)%list
    /\ never_invoked is_backend earlier
    /\ never_invoked is_origin earlier
    /\ In (mkEvent (ProcessHrtime (Some t0)) (hrtime_value t)) later
    /\ env_latency (envelope Fixture.book (JStr "key") (JBool false)
                      (elapsed_ms (0%Z, 1500000%Z)) [])
       = elapsed_ms t.
Proof.
  apply (latency_is_measured_from_the_start Fixture.globals Fixture.healthy Sample.cold tt).
  - exists (mkEvent (CacheHas (JStr "key")) (Returned (JBool false))).
    split; [vm_compute; prove_in | reflexivity].
  - reflexivity.
Defined.

(** X5.  The statistics and the envelope agree.  After a lookup that ends in
    an envelope: every [recordMiss] was called with the key and the latency of
    the envelope, which says [hit: false]; every [recordHit] was called with
    the key of the envelope, and with its latency when the envelope says
    [hit: true]; an envelope with [hit: true] comes with exactly one
    [recordHit], one with [hit: false] with exactly one [recordMiss]. *)
Theorem statistics_agree_with_envelope :
  forall (Env : Type) (G : Globals Env) (this : CapOperations Env) (c : RtCall Env)
         (e0 : Env) (v : JsValue),
    invoked is_backend (trace_of (perform G this c) e0) ->
    outcome_of (perform G this c) e0 = Returned v ->
    (forall latency key metadata o,
       In (mkEvent (RecordMiss latency key metadata) o) (trace_of (perform G this c) e0) ->
       env_hit v = JBool false /\ env_latency v = latency /\ env_cacheKey v = key)
    /\ (forall latency key metadata o,
          In (mkEvent (RecordHit latency key metadata) o) (trace_of (perform G this c) e0) ->
          env_cacheKey v = key
          /\ (env_hit v = JBool true -> env_latency v = latency))
    /\ (env_hit v = JBool true -> count is_recordHit (trace_of (perform G this c) e0) = 1)
    /\ (env_hit v = JBool false -> count is_recordMiss (trace_of (perform G this c) e0) = 1).
Proof.
  intros Env G this c e0 v.
  change (wp (perform G this c)
            (fun o w =>
               invoked is_backend (trace w) ->
               o = Returned v ->
               (forall latency key metadata o,
                  In (mkEvent (RecordMiss latency key metadata) o) (trace w) ->
                  env_hit v = JBool false /\ env_latency v = latency /\ env_cacheKey v = key)
               /\ (forall latency key metadata o,
                     In (mkEvent (RecordHit latency key metadata) o) (trace w) ->
                     env_cacheKey v = key
                     /\ (env_hit v = JBool true -> env_latency v = latency))
               /\ (env_hit v = JBool true -> count is_recordHit (trace w) = 1)
               /\ (env_hit v = JBool false -> count is_recordMiss (trace w) = 1))
            {| trace := []; env := e0 |}).
  destruct c as [request service options | arg1 arg2 arg3]; wp_run.
  all: intros Hb Hout; try solve [use_invoked Hb]; clear Hb.
  all: try discriminate Hout.
  all: injection Hout as <-.
  all: split; [ intros latency0 key0 metadata0 o' Hin; in_cases Hin; event_eq Hin;
                repeat split; reflexivity | ].
  all: split; [ intros latency0 key0 metadata0 o' Hin; in_cases Hin; event_eq Hin;
                (split; [reflexivity
                        | intros Hhit; first [reflexivity | discriminate Hhit]]) | ].
  all: split; intros Hhit; first [reflexivity | discriminate Hhit].
Qed.

Lemma statistics_agree_with_envelope_witness :
  count is_recordMiss (trace_of (perform Fixture.globals Fixture.healthy Sample.cold) tt) = 1.
Proof.
  destruct (statistics_agree_with_envelope Fixture.globals Fixture.healthy Sample.cold tt
              (v := envelope Fixture.book (JStr "key") (JBool false)
                      (elapsed_ms (0%Z, 1500000%Z)) []))
    as (_ & _ & _ & Hmiss).
  - exists (mkEvent (CacheHas (JStr "key")) (Returned (JBool false))).
    split; [vm_compute; prove_in | reflexivity].
  - reflexivity.
  - apply Hmiss. reflexivity.
Defined.

(** X6.  After a lookup that ends in an envelope, [cacheErrors] lists, in the
    order of the calls, exactly the failures of [recordHit], [recordMiss] and
    SET: one record per failed call, with the message of the error and the
    name of the operation.  Failures of [has] and of GET leave no record. *)
Theorem cacheErrors_list_the_failed_writes :
  forall (Env : Type) (G : Globals Env) (this : CapOperations Env) (c : RtCall Env)
         (e0 : Env) (v : JsValue),
    invoked is_backend (trace_of (perform G this c) e0) ->
    outcome_of (perform G this c) e0 = Returned v ->
    map reported (env_cacheErrors v)
    = flat_map failed_operation (trace_of (perform G this c) e0).
Proof.
  intros Env G this c e0 v.
  change (wp (perform G this c)
            (fun o w =>
               invoked is_backend (trace w) ->
               o = Returned v ->
               map reported (env_cacheErrors v) = flat_map failed_operation (trace w))
            {| trace := []; env := e0 |}).
  destruct c as [request service options | arg1 arg2 arg3]; wp_run.
  all: intros Hb Hout; try solve [use_invoked Hb]; clear Hb.
  all: try discriminate Hout.
  all: injection Hout as <-.
  all: unfold env_cacheErrors; cbn [get assoc envelope obj String.eqb Ascii.eqb Bool.eqb].
  all: rewrite ?push_safe.
  all: repeat match goal with o : Outcome JsValue |- _ => destruct o end.
  all: reflexivity.
Qed.

Lemma cacheErrors_list_the_failed_writes_witness :
  map reported
    (env_cacheErrors
       (envelope Fixture.book (JStr "key") (JBool false) (elapsed_ms (0%Z, 1500000%Z))
          [error_record (Fixture.failure "read only") "set"
             (obj [("key", JStr "key"); ("ttl", num 60)])]))
  = flat_map failed_operation
      (trace_of (perform Fixture.globals Fixture.set_down Sample.cold) tt).
Proof.
  apply (cacheErrors_list_the_failed_writes Fixture.globals Fixture.set_down Sample.cold tt).
  - exists (mkEvent (CacheHas (JStr "key")) (Returned (JBool false))).
    split; [vm_compute; prove_in | reflexivity].
  - reflexivity.
Defined.

(** X7.  One read-through call repeats no call: [has], GET, SET, [recordHit],
    [recordMiss] and the origin are each invoked at most once. *)
Theorem no_call_is_repeated :
  forall (Env : Type) (G : Globals Env) (this : CapOperations Env) (c : RtCall Env)
         (e0 : Env),
    count is_has (trace_of (perform G this c) e0) <= 1
    /\ count is_get (trace_of (perform G this c) e0) <= 1
    /\ count is_set (trace_of (perform G this c) e0) <= 1
    /\ count is_recordHit (trace_of (perform G this c) e0) <= 1
    /\ count is_recordMiss (trace_of (perform G this c) e0) <= 1
    /\ count is_origin (trace_of (perform G this c) e0) <= 1.
Proof.
  intros Env G this c e0.
  change (wp (perform G this c)
            (fun o w =>
               count is_has (trace w) <= 1
               /\ count is_get (trace w) <= 1
               /\ count is_set (trace w) <= 1
               /\ count is_recordHit (trace w) <= 1
               /\ count is_recordMiss (trace w) <= 1
               /\ count is_origin (trace w) <= 1)
            {| trace := []; env := e0 |}).
  destruct c as [request service options | arg1 arg2 arg3]; wp_run.
  all: cbn; repeat split; lia.
Qed.

(** X8.  The calls of one read-through call come in a fixed order.  A SET is
    made only after the origin has returned and [recordMiss] was called.  When
    both the backend and the origin are invoked, a call on the backend (the
    lookup) comes before the origin.  [recordHit] is never preceded by the
    origin; [run] with a request calls it after the GET, while [send] and
    [run] with a query call it before the GET. *)
Theorem calls_are_ordered :
  forall (Env : Type) (G : Globals Env) (this : CapOperations Env) (c : RtCall Env)
         (e0 : Env),
    (invoked is_set (trace_of (perform G this c) e0) ->
     (exists response,
        returned is_origin response (before is_set (trace_of (perform G this c) e0)))
     /\ invoked is_recordMiss (before is_set (trace_of (perform G this c) e0)))
    /\ (invoked is_backend (trace_of (perform G this c) e0) ->
        invoked is_origin (trace_of (perform G this c) e0) ->
        invoked is_backend (before is_origin (trace_of (perform G this c) e0)))
    /\ (invoked is_recordHit (trace_of (perform G this c) e0) ->
        never_invoked is_origin (before is_recordHit (trace_of (perform G this c) e0))
        /\ if match c with
              | RtSend _ _ _ => false
              | RtRun arg1 _ _ => request_constructor arg1
              end
           then invoked is_get (before is_recordHit (trace_of (perform G this c) e0))
           else never_invoked is_get (before is_recordHit (trace_of (perform G this c) e0))).
Proof.
  intros Env G this c e0.
  change (wp (perform G this c)
            (fun o w =>
               (invoked is_set (trace w) ->
                (exists response, returned is_origin response (before is_set (trace w)))
                /\ invoked is_recordMiss (before is_set (trace w)))
               /\ (invoked is_backend (trace w) ->
                   invoked is_origin (trace w) ->
                   invoked is_backend (before is_origin (trace w)))
               /\ (invoked is_recordHit (trace w) ->
                   never_invoked is_origin (before is_recordHit (trace w))
                   /\ if match c with
                         | RtSend _ _ _ => false
                         | RtRun arg1 _ _ => request_constructor arg1
                         end
                      then invoked is_get (before is_recordHit (trace w))
                      else never_invoked is_get (before is_recordHit (trace w))))
            {| trace := []; env := e0 |}).
  remember (match c with
            | RtSend _ _ _ => false
            | RtRun arg1 _ _ => request_constructor arg1
            end) as shape eqn:Hshape.
  symmetry in Hshape.
  destruct c as [request service options | arg1 arg2 arg3]; wp_run.
  all: unfold request_constructor in Hshape;
       repeat match goal with
              | H : ?b = true |- _ => rewrite H in Hshape
              | H : ?b = false |- _ => rewrite H in Hshape
              end;
       cbn [andb negb] in Hshape; subst shape.
  all: cbn [before ev_call safe_log is_set is_origin is_recordHit String.eqb Ascii.eqb Bool.eqb].
  all: split; [ intros Hs; first [ use_invoked Hs; fail
                                 | split; [eexists; prove_event | prove_invoked] ] | ].
  all: split; [ intros Hb Ho; first [ use_invoked Hb; fail | use_invoked Ho; fail
                                    | prove_invoked ] | ].
  all: intros Hh; first [ use_invoked Hh; fail
                        | split; [prove_never | first [prove_invoked | prove_never]] ].
Qed.


(** ** The response headers of [run] *)

Lemma assoc_set_prop p k v l :
  assoc p (set_prop k v l) = if k =? p then v else assoc p l.
Proof.
  induction l as [| [k' w] rest IH]; cbn.
  - rewrite String.eqb_sym. destruct (p =? k); reflexivity.
  - destruct (k' =? k) eqn:Ek; cbn.
    + apply String.eqb_eq in Ek. subst k'. destruct (k =? p); reflexivity.
    + rewrite IH. destruct (k' =? p) eqn:Ep; [| reflexivity].
      apply String.eqb_eq in Ep. subst k'. rewrite String.eqb_sym, Ek. reflexivity.
Qed.

(** An assignment to one property leaves the other ones as they are. *)
Lemma get_assign_other o k v p :
  (k =? p) = false -> get (assign o k v) p = get o p.
Proof.
  intros H. destruct o; try reflexivity. cbn. rewrite assoc_set_prop, H. reflexivity.
Qed.



(** X11.  No other call sets a header: [send], [run] with a query, [run]
    with an argument that is no request, and [run] with a request that has no
    response object never call [setHeader]. *)
Theorem only_run_with_response_sets_headers :
  forall (Env : Type) (G : Globals Env) (this : CapOperations Env) (c : RtCall Env)
         (e0 : Env),
    match c with
    | RtSend _ _ _ => True
    | RtRun arg1 _ _ => request_constructor arg1 = false \/ nullish (get arg1 "res") = true
    end ->
    never_invoked is_header (trace_of (perform G this c) e0).
Proof.
  intros Env G this c e0 Hc.
  change (wp (perform G this c) (fun o w => never_invoked is_header (trace w))
            {| trace := []; env := e0 |}).
  destruct c as [request service options | arg1 arg2 arg3].
  - wp_run. all: prove_never.
  - wp_run.
    all: try prove_never.
    all: exfalso; destruct Hc as [Hc | Hc].
    all: try solve [ match goal with
                     | H : nullish (get ?r "res") = _ |- _ =>
                         repeat first [ match type of H with
                                        | context [get ?x "res"] => is_var x; unfold x in H
                                        end
                                      | rewrite get_assign_other in H by reflexivity ];
                         congruence
                     end ].
    all: unfold request_constructor in Hc;
         apply andb_false_iff in Hc; destruct Hc as [Hc | Hc];
         [apply andb_false_iff in Hc; destruct Hc as [Hc | Hc] |];
         try congruence; apply negb_false_iff in Hc; congruence.
Qed.

Lemma only_run_with_response_sets_headers_witness :
  never_invoked is_header
    (trace_of (perform Fixture.globals Fixture.warm
                 (RtRun Fixture.read_request (Fixture.handler Fixture.ok) JUndefined)) tt).
Proof.
  apply (only_run_with_response_sets_headers Fixture.globals Fixture.warm
           (RtRun Fixture.read_request (Fixture.handler Fixture.ok) JUndefined) tt).
  right. reflexivity.
Defined.


(** ** Object literals, spread and assignment *)

Lemma names_set_prop p k v l :
  In p (names_of (set_prop k v l)) <-> p = k \/ In p (names_of l).
Proof.
  unfold names_of. induction l as [| [k' w] rest IH]; cbn.
  - intuition.
  - destruct (k' =? k) eqn:Ek; cbn.
    + apply String.eqb_eq in Ek. subst k'. intuition.
    + rewrite IH. intuition.
Qed.

Lemma NoDup_set_prop k v l :
  NoDup (names_of l) -> NoDup (names_of (set_prop k v l)).
Proof.
  unfold names_of. induction l as [| [k' w] rest IH]; cbn; intros H.
  - constructor; [intros [] | constructor].
  - inversion H as [| x xs Hnot Hrest]; subst.
    destruct (k' =? k) eqn:Ek; cbn.
    + constructor; assumption.
    + constructor; [| apply IH, Hrest].
      intros Hin. apply (names_set_prop k' k v rest) in Hin.
      destruct Hin as [Hin | Hin]; [| exact (Hnot Hin)].
      subst k'. rewrite String.eqb_refl in Ek. discriminate Ek.
Qed.

Lemma assoc_absent p l : ~ In p (names_of l) -> assoc p l = JUndefined.
Proof.
  unfold names_of. induction l as [| [k w] rest IH]; cbn; intros H; [reflexivity |].
  destruct (k =? p) eqn:E.
  - apply String.eqb_eq in E. subst k. exfalso. apply H. left. reflexivity.
  - apply IH. intros Hin. apply H. right. exact Hin.
Qed.

Lemma assoc_present p v l :
  NoDup (names_of l) -> In (p, v) l -> assoc p l = v.
Proof.
  unfold names_of. induction l as [| [k w] rest IH]; cbn; intros Hnd Hin; [destruct Hin |].
  inversion Hnd as [| x xs Hnot Hrest]; subst.
  destruct Hin as [Hin | Hin].
  - injection Hin as -> ->. rewrite String.eqb_refl. reflexivity.
  - destruct (k =? p) eqn:E; [| apply IH; assumption].
    apply String.eqb_eq in E. subst k. exfalso. apply Hnot.
    change p with (fst (p, v)). apply in_map. exact Hin.
Qed.

(** What [{ ...base, k1: v1, ... }] holds under [p]: the written value when
    [p] is among the written names, the one of [base] otherwise. *)
Lemma assoc_extend_absent p kvs base :
  ~ In p (names_of kvs) -> assoc p (extend base kvs) = assoc p base.
Proof.
  unfold extend, names_of. revert base.
  induction kvs as [| [k w] rest IH]; cbn; intros base H; [reflexivity |].
  rewrite IH by (intros Hin; apply H; right; exact Hin).
  rewrite assoc_set_prop.
  destruct (k =? p) eqn:E; [| reflexivity].
  apply String.eqb_eq in E. subst k. exfalso. apply H. left. reflexivity.
Qed.

Lemma assoc_extend_present p v kvs base :
  NoDup (names_of kvs) -> In (p, v) kvs -> assoc p (extend base kvs) = v.
Proof.
  revert base.
  induction kvs as [| [k w] rest IH]; intros base Hnd Hin; [destruct Hin |].
  inversion Hnd as [| x xs Hnot Hrest]; subst.
  change (extend base ((k, w) :: rest)) with (extend (set_prop k w base) rest).
  destruct Hin as [Hin | Hin].
  - injection Hin as -> ->.
    rewrite assoc_extend_absent by exact Hnot.
    rewrite assoc_set_prop, String.eqb_refl. reflexivity.
  - apply IH; assumption.
Qed.

Lemma names_extend p kvs base :
  In p (names_of (extend base kvs)) <-> In p (names_of base) \/ In p (names_of kvs).
Proof.
  revert base.
  induction kvs as [| [k w] rest IH]; intros base.
  - cbn. intuition.
  - change (extend base ((k, w) :: rest)) with (extend (set_prop k w base) rest).
    rewrite IH, names_set_prop. cbn. intuition.
Qed.

Lemma NoDup_extend kvs base :
  NoDup (names_of base) -> NoDup (names_of (extend base kvs)).
Proof.
  revert base.
  induction kvs as [| [k w] rest IH]; intros base H; [exact H |].
  change (extend base ((k, w) :: rest)) with (extend (set_prop k w base) rest).
  apply IH, NoDup_set_prop, H.
Qed.

Lemma spread_into_extend base v : spread_into base v = extend base (own_props v).
Proof. reflexivity. Qed.

(** A falsy value has no property to spread, so [...(v || {})] spreads what
    [...v] spreads. *)
Lemma own_props_or_else v : own_props (or_else v (obj [])) = own_props v.
Proof.
  unfold or_else. destruct (truthy v) eqn:E; [reflexivity |].
  destruct v as [ | | b | q | s | name | items | ctor props ];
    try reflexivity; try discriminate E.
  cbn in E. apply negb_false_iff, String.eqb_eq in E. subst s. reflexivity.
Qed.

Lemma own_props_default v : own_props (default_param v (obj [])) = own_props v.
Proof. destruct v; reflexivity. Qed.

Lemma assoc_spread_into_nodup p base kvs :
  NoDup (names_of kvs) ->
  assoc p (spread_into base (obj kvs))
  = if existsb (String.eqb p) (names_of kvs) then assoc p kvs else assoc p base.
Proof.
  intros Hnd. rewrite spread_into_extend. cbn [own_props obj].
  destruct (existsb (String.eqb p) (names_of kvs)) eqn:E.
  - apply existsb_exists in E. destruct E as (k & Hin & Hk).
    apply String.eqb_eq in Hk. subst k.
    unfold names_of in Hin. apply in_map_iff in Hin. destruct Hin as ([k v] & Hk & Hin).
    cbn in Hk. subst k.
    rewrite (@assoc_extend_present p v kvs base Hnd Hin).
    symmetry. apply assoc_present; assumption.
  - apply assoc_extend_absent. intros Hin.
    assert (Hex : existsb (String.eqb p) (names_of kvs) = true).
    { apply existsb_exists. exists p. split; [exact Hin | apply String.eqb_refl]. }
    congruence.
Qed.

(** ** The cache options *)

(** X12.  The options of the caller take precedence.  For every own property
    [p: v] of the [options] argument (an object has each name once), the
    options that [send], [run] with a query, [extractEntityCacheOptions] and
    [extractFunctionCacheOptions] build hold [v] under [p], whatever the
    defaults and the annotations say.  (The request is an object and the
    registries hold objects, so that reading them does not throw.) *)
Theorem caller_options_take_precedence :
  forall (Env : Type) (this : CapOperations Env) (req options : JsValue)
         (p : string) (v : JsValue),
    holds_objects (cacheAnnotatedFunctions_bound this) ->
    holds_objects (cacheAnnotatedFunctions_unbound this) ->
    nullish req = false ->
    NoDup (names_of (own_props options)) ->
    In (p, v) (own_props options) ->
    get (send_requestOptions options) p = v
    /\ get (run_options options) p = v
    /\ get (extractEntityCacheOptions req options) p = v
    /\ get (extractFunctionCacheOptions this req options) p = v.
Proof.
  intros Env this req options p v _ _ _ Hnd Hin.
  unfold send_requestOptions, run_options, extractEntityCacheOptions,
    extractFunctionCacheOptions.
  cbv zeta. cbn [get obj].
  rewrite !spread_into_extend, !own_props_or_else, !own_props_default.
  repeat split; apply assoc_extend_present; assumption.
Qed.

Lemma caller_options_take_precedence_witness :
  get (send_requestOptions Fixture.options) "ttl" = num 60
  /\ get (run_options Fixture.options) "ttl" = num 60
  /\ get (extractEntityCacheOptions Sample.function_request Fixture.options) "ttl" = num 60
  /\ get (extractFunctionCacheOptions Sample.with_function Sample.function_request
            Fixture.options) "ttl" = num 60.
Proof.
  apply caller_options_take_precedence.
  - repeat constructor.
  - constructor.
  - reflexivity.
  - repeat constructor; cbn; intuition discriminate.
  - left. reflexivity.
Defined.

(** X13.  Annotations and defaults fill in what the caller left out.  For a
    name [p] that the [options] argument does not have, [send] defaults [ttl]
    to 0, [run] with a query defaults [ttl] to 0 and [tags] to [[]], and
    [extractEntityCacheOptions] gives [ttl], [key] and [tags] the value of the
    annotation [@cache.ttl], [@cache.key], [@cache.tags] of [req.target] when
    that is truthy, and 0, [null], [[]] otherwise; every other name is
    [undefined].  (The request is an object.) *)
Theorem defaults_fill_in_missing_options :
  forall (req options : JsValue) (p : string),
    nullish req = false ->
    ~ In p (names_of (own_props options)) ->
    get (send_requestOptions options) p = assoc p [("ttl", num 0)]
    /\ get (run_options options) p = assoc p [("ttl", num 0); ("tags", JArr [])]
    /\ get (extractEntityCacheOptions req options) p
       = assoc p [("ttl", or_else (get_opt (get req "target") "@cache.ttl") (num 0));
                  ("key", or_else (get_opt (get req "target") "@cache.key") JNull);
                  ("tags", or_else (get_opt (get req "target") "@cache.tags") (JArr []))].
Proof.
  intros req options p _ H.
  unfold send_requestOptions, run_options, extractEntityCacheOptions.
  cbv zeta. cbn [get obj].
  rewrite !spread_into_extend, !own_props_or_else, ?own_props_default.
  repeat split; apply assoc_extend_absent, H.
Qed.

Lemma defaults_fill_in_missing_options_witness :
  get (extractEntityCacheOptions Sample.function_request (obj [("tags", JArr [])])) "ttl"
  = num 30.
Proof.
  destruct (@defaults_fill_in_missing_options Sample.function_request
              (obj [("tags", JArr [])]) "ttl") as (_ & _ & H).
  - reflexivity.
  - cbn. intuition discriminate.
  - exact H.
Defined.

(** ** The registry of annotated functions *)

Lemma register_app (Env : Type) (this : CapOperations Env) rs r :
  register this (rs ++ [r])
  = addCachableFunction (register this rs) (reg_name r) (reg_options r) (reg_isBound r).
Proof. unfold register. rewrite fold_left_app. reflexivity. Qed.

Lemma register_entries (Env : Type) (this : CapOperations Env) rs :
  Forall is_registry_entry (cacheAnnotatedFunctions_bound this) ->
  Forall is_registry_entry (cacheAnnotatedFunctions_unbound this) ->
  Forall is_registry_entry (cacheAnnotatedFunctions_bound (register this rs))
  /\ Forall is_registry_entry (cacheAnnotatedFunctions_unbound (register this rs)).
Proof.
  intros Hb Hu. induction rs as [| r rs IH] using rev_ind; [split; assumption |].
  rewrite register_app. destruct IH as [IHb IHu].
  unfold addCachableFunction. cbv zeta.
  cbn [cacheAnnotatedFunctions_bound cacheAnnotatedFunctions_unbound].
  destruct (truthy (default_param (reg_isBound r) (JBool false))); split; try assumption.
  all: apply Forall_app; split; [assumption |]; constructor; [| constructor].
  all: exists (reg_name r), (reg_options r); reflexivity.
Qed.

(** The entry that [find] returns from a registry of [{ name, options }]
    objects has no property besides those two. *)
Lemma find_registry_entry (test : JsValue -> bool) registry p :
  Forall is_registry_entry registry ->
  (p =? "name") = false -> (p =? "options") = false ->
  get_opt match find test registry with Some f => f | None => JUndefined end p = JUndefined.
Proof.
  intros H Hn Ho. induction H as [| f rest Hf Hrest IH]; [reflexivity |].
  cbn [find]. destruct (test f); [| exact IH].
  destruct Hf as (name & options & ->).
  unfold get_opt, obj. cbn [nullish get assoc].
  rewrite (String.eqb_sym "name" p), Hn, (String.eqb_sym "options" p), Ho. reflexivity.
Qed.

(** X14.  What [addCachableFunction] registers is never read.  Starting from
    the empty registries of a new [CapOperations], after any sequence of calls
    of [addCachableFunction], [extractFunctionCacheOptions] returns [ttl: 0],
    [key: null] and [tags: []] overlaid with the [options] argument, for every
    request: the entry it finds is [{ name, options }], which has no
    [@cache.ttl], [@cache.key] or [@cache.tags] of its own.  (The request
    is an object.) *)
Theorem registered_annotations_are_not_read :
  forall (Env : Type) (this : CapOperations Env) (registrations : list Registration)
         (req options : JsValue),
    cacheAnnotatedFunctions_bound this = [] ->
    cacheAnnotatedFunctions_unbound this = [] ->
    nullish req = false ->
    extractFunctionCacheOptions (register this registrations) req options
    = obj (spread_into [("ttl", num 0); ("key", JNull); ("tags", JArr [])]
             (or_else (default_param options (obj [])) (obj []))).
Proof.
  intros Env this registrations req options Hb Hu _.
  destruct (register_entries this registrations) as [Hbound Hunbound];
    [rewrite Hb; constructor | rewrite Hu; constructor |].
  unfold extractFunctionCacheOptions. cbv zeta.
  destruct (truthy (get req "query")).
  - rewrite !(find_registry_entry _ _ Hbound) by reflexivity. reflexivity.
  - rewrite !(find_registry_entry _ _ Hunbound) by reflexivity. reflexivity.
Qed.

Lemma registered_annotations_are_not_read_witness :
  extractFunctionCacheOptions (register Fixture.healthy [Sample.top_books])
    Sample.function_request JUndefined
  = obj [("ttl", num 0); ("key", JNull); ("tags", JArr [])].
Proof.
  apply (registered_annotations_are_not_read Fixture.healthy [Sample.top_books]
           Sample.function_request JUndefined); reflexivity.
Defined.

(** ** [extractCacheOptions] *)

Lemma extractEntityCacheOptions_props req options :
  extractEntityCacheOptions req options
  = obj (extend [("ttl", or_else (get_opt (get req "target") "@cache.ttl") (num 0));
                 ("key", or_else (get_opt (get req "target") "@cache.key") JNull);
                 ("tags", or_else (get_opt (get req "target") "@cache.tags") (JArr []))]
                (own_props options)).
Proof.
  unfold extractEntityCacheOptions. cbv zeta.
  rewrite spread_into_extend, own_props_or_else, own_props_default. reflexivity.
Qed.

Lemma extractFunctionCacheOptions_props (Env : Type) (this : CapOperations Env) req options :
  exists ttl key tags,
    extractFunctionCacheOptions this req options
    = obj (extend [("ttl", ttl); ("key", key); ("tags", tags)] (own_props options)).
Proof.
  unfold extractFunctionCacheOptions. cbv zeta.
  rewrite spread_into_extend, own_props_or_else, own_props_default.
  do 3 eexists. reflexivity.
Qed.

(** X15.  In [extractCacheOptions] the entity wins.  For a request with a
    named target (and registries that hold objects), [extractCacheOptions]
    returns an object each of whose properties has the value that
    [extractEntityCacheOptions] gives it: what [extractFunctionCacheOptions]
    contributed is overwritten, so the annotations of a registered function
    never show. *)
Theorem extractCacheOptions_entity_wins :
  forall (Env : Type) (this : CapOperations Env) (req options : JsValue) (w : World Env),
    holds_objects (cacheAnnotatedFunctions_bound this) ->
    holds_objects (cacheAnnotatedFunctions_unbound this) ->
    nullish req = false ->
    truthy (get req "target") = true ->
    truthy (get (get req "target") "name") = true ->
    exists extracted,
      extractCacheOptions this req options w = (Returned extracted, w)
      /\ forall p, get extracted p = get (extractEntityCacheOptions req options) p.
Proof.
  intros Env this req options w _ _ Hreq Htarget Hname.
  unfold extractCacheOptions. cbv zeta. unfold member. rewrite Hreq.
  cbn [bind ret Monad_M].
  unfold and_then. rewrite Htarget, Hname.
  eexists. split; [reflexivity |].
  intros p.
  destruct (extractFunctionCacheOptions_props this req (default_param options (obj [])))
    as (ttl & key & tags & ->).
  rewrite !extractEntityCacheOptions_props, !spread_into_extend, !own_props_default.
  set (kvs := own_props options).
  match goal with
  | |- context [obj (extend ?b kvs)] =>
      lazymatch b with
      | context [or_else] => set (entity := extend b kvs)
      end
  end.
  assert (Hnd : NoDup (names_of entity)).
  { unfold entity. apply NoDup_extend.
    cbn. repeat constructor; cbn; intuition discriminate. }
  unfold Object_assign, obj. cbn [get].
  rewrite (@assoc_spread_into_nodup p _ entity Hnd).
  destruct (existsb (String.eqb p) (names_of entity)) eqn:E; [reflexivity |].
  assert (Hp : ~ In p (names_of entity)).
  { intros Hin.
    assert (Hex : existsb (String.eqb p) (names_of entity) = true)
      by (apply existsb_exists; exists p; split; [exact Hin | apply String.eqb_refl]).
    congruence. }
  rewrite (@assoc_absent p entity Hp).
  apply assoc_absent. intros Hin. apply Hp. clear Hp E.
  unfold entity. apply names_extend.
  rewrite spread_into_extend in Hin. apply names_extend in Hin.
  destruct Hin as [Hin | Hin].
  - apply names_extend in Hin. destruct Hin as [[] | Hin]. right. exact Hin.
  - cbn [own_props] in Hin. apply names_extend in Hin.
    destruct Hin as [Hin | Hin]; [left | right; exact Hin].
    cbn in Hin |- *. exact Hin.
Qed.

Lemma extractCacheOptions_entity_wins_witness :
  exists extracted,
    extractCacheOptions Sample.with_function Sample.function_request Fixture.options
      {| trace := []; env := tt |}
    = (Returned extracted, {| trace := []; env := tt |})
    /\ forall p, get extracted p
                 = get (extractEntityCacheOptions Sample.function_request Fixture.options) p.
Proof.
  apply extractCacheOptions_entity_wins.
  - repeat constructor.
  - constructor.
  - reflexivity.
  - reflexivity.
  - reflexivity.
Defined.

(** ** The deprecated shortcuts of [CachingService] *)

(** X16.  [CachingService.send] passes to [super.send], with the same
    arguments and doing nothing else, every call whose first argument is not
    of type "object" (such as the event names "GET" and "SET" that the
    coordinator itself sends to the cache), every call to a service without a
    [send] method, and every call for a request whose [method] is not exactly
    the string "GET". *)
Theorem CachingService_send_passes_through :
  forall (Env : Type) (G : Globals Env) (this : CapOperations Env)
         (super_send : JsValue -> SendTarget Env -> JsValue -> Eff Env JsValue)
         (arg1 : JsValue) (arg2 : SendTarget Env) (arg3 : JsValue) (w : World Env),
    (typeof arg1 =? "object") = false
    \/ (exists service, arg2 = ToService service /\ svc_send service = None)
    \/ (exists service, arg2 = ToService service
                        /\ nullish arg1 = false
                        /\ strict_eq (get arg1 "method") (JStr "GET") = false) ->
    CachingService_send G this super_send arg1 arg2 arg3 w
    = invoke (super_send arg1 arg2 arg3) w.
Proof.
  intros Env G this super_send arg1 arg2 arg3 w H.
  unfold CachingService_send.
  destruct (typeof arg1 =? "object") eqn:Htype; [| reflexivity].
  destruct H as [H | [(service & -> & Hsend) | (service & -> & Hnull & Hmethod)]];
    [discriminate H | |].
  - cbn. rewrite Hsend. reflexivity.
  - cbn. destruct (svc_send service); [| reflexivity].
    cbn. unfold member. rewrite Hnull. cbn. rewrite Hmethod. reflexivity.
Qed.

Lemma CachingService_send_passes_through_witness :
  CachingService_send Fixture.globals Fixture.healthy Sample.super_send
    (JStr "GET") (ToValue unit (obj [("key", JStr "key")])) JUndefined
    {| trace := []; env := tt |}
  = invoke (Sample.super_send (JStr "GET") (ToValue unit (obj [("key", JStr "key")]))
              JUndefined)
      {| trace := []; env := tt |}.
Proof.
  apply CachingService_send_passes_through. left. reflexivity.
Defined.





(** X18.  [CachingService.run] passes to [super.run] every first argument
    that is not of type "object" and not [undefined] (a string, a number, a
    boolean, a function): it makes that one call and returns or throws what it
    returned or threw. *)
Theorem CachingService_run_passes_primitives :
  forall (Env : Type) (G : Globals Env) (this : CapOperations Env)
         (super_run : JsValue -> Eff Env JsValue)
         (arg1 : JsValue) (arg2 : Arg2 Env) (arg3 : JsValue) (e0 : Env),
    (typeof arg1 =? "object") = false ->
    is_defined arg1 = true ->
    exec (CachingService_run G this super_run arg1 arg2 arg3) e0
    = exec (call (SuperRun arg1) (super_run arg1)) e0.
Proof.
  intros Env G this super_run arg1 arg2 arg3 e0 Htype Hdef.
  unfold exec, CachingService_run. rewrite Htype.
  destruct arg1; try discriminate Htype; try discriminate Hdef; reflexivity.
Qed.

Lemma CachingService_run_passes_primitives_witness :
  exec (CachingService_run Fixture.globals Fixture.healthy Sample.super_run
          (JStr "SELECT from Books") (A2Value unit JUndefined) JUndefined) tt
  = exec (call (SuperRun (JStr "SELECT from Books"))
               (Sample.super_run (JStr "SELECT from Books"))) tt.
Proof.
  apply CachingService_run_passes_primitives; reflexivity.
Defined.





(** ** The handlers of "SET" and "GET" *)

(** X21.  What [handleGet] returns for a key right after [handleSet] stored
    a value under it, on a store that keeps what was set: a value of type
    "object" comes back as [JSON.parse] of its [JSON.stringify] text; any other
    value that is not a string comes back as it is; and a string comes back
    parsed when it is valid JSON text (the string "42" comes back as the
    number 42) and as it is otherwise.  A text that does not parse never makes
    [handleGet] throw. *)
Theorem handleGet_after_handleSet :
  forall (Env : Type) (G : Globals Env) (JSON_parse : string -> option JsValue)
         (ToString : JsValue -> string) (store : Store Env)
         (set_event get_event key value ttl : JsValue) (e0 : Env),
    get set_event "data" = obj [("key", key); ("value", value); ("ttl", ttl)] ->
    get get_event "data" = obj [("key", key)] ->
    keeps_what_was_set store key ->
    outcome_of (handleSet G ToString store set_event ;;
                handleGet JSON_parse ToString store get_event) e0
    = Returned
        match (if typeof value =? "object"
               then JSON_stringify G value JUndefined else value) with
        | JStr text =>
            match JSON_parse text with
            | Some parsed => parsed
            | None => JStr text
            end
        | stored => stored
        end.
Proof.
  intros Env G JSON_parse ToString store set_event get_event key value ttl e0
         Hset_event Hget_event Hlaw.
  assert (Hs : nullish set_event = false)
    by (destruct set_event; try reflexivity; discriminate Hset_event).
  assert (Hg : nullish get_event = false)
    by (destruct get_event; try reflexivity; discriminate Hget_event).
  unfold outcome_of, exec, handleSet, handleGet, member, invoke, log, emit.
  rewrite Hs, Hg, Hset_event, Hget_event.
  cbn [nullish get assoc String.eqb Ascii.eqb Bool.eqb obj bind ret Monad_M env trace].
  destruct (typeof value =? "object");
    cbn [obj assign set_prop get assoc String.eqb Ascii.eqb Bool.eqb env trace].
  all: match goal with
       | |- context [store_set _ ?k ?stored ?t ?e] =>
           destruct (Hlaw stored t e) as (r & e1 & Hset & Hget); rewrite Hset
       end.
  all: cbn [env trace].
  all: revert Hget; destruct (store_get store key e1) as [o e2]; cbn [fst]; intros ->.
  all: match goal with
       | |- context [match ?stored with JStr _ => _ | _ => _ end] => destruct stored
       end; try reflexivity.
  all: match goal with
       | |- context [match ?parse ?text with Some _ => _ | None => _ end] =>
           destruct (parse text)
       end; reflexivity.
Qed.

Lemma handleGet_after_handleSet_witness :
  outcome_of
    (handleSet Fixture.memory_globals Sample.show Sample.memory
       (obj [("data", obj [("key", JStr "answer"); ("value", JStr "42"); ("ttl", num 0)])]) ;;
     handleGet Sample.parse Sample.show Sample.memory
       (obj [("data", obj [("key", JStr "answer")])]))
    []
  = Returned (num 42).
Proof.
  apply (@handleGet_after_handleSet Fixture.store Fixture.memory_globals Sample.parse
           Sample.show Sample.memory
           (obj [("data", obj [("key", JStr "answer"); ("value", JStr "42"); ("ttl", num 0)])])
           (obj [("data", obj [("key", JStr "answer")])])
           (JStr "answer") (JStr "42") (num 0) []).
  - reflexivity.
  - reflexivity.
  - intros value ttl e. do 2 eexists. split; reflexivity.
Defined.

(** ** Two calls in a row

    Rules that keep the equation of each call on a collaborator. *)

Section At.
Variable Env : Type.
Variable G : Globals Env.

Lemma wp_safe_at c (f : Eff Env JsValue) operationName context
    (Q : Outcome JsValue -> World Env -> Prop) w :
  (forall o e',
     f (env w) = (o, e') ->
     Q (Returned (safe_result o operationName context))
       {| trace := trace w ++ [mkEvent c o; safe_log o operationName context];
          env := e' |}) ->
  wp (safeCacheOperation (call c f) operationName context) Q w.
Proof.
  intros H. unfold wp. rewrite safeCacheOperation_call. apply H.
  destruct (f (env w)); reflexivity.
Qed.

Lemma wp_process_hrtime_at start (Q : Outcome (Z * Z) -> World Env -> Prop) w :
  (forall t e',
     hrtime G start (env w) = (t, e') ->
     Q (Returned t)
       {| trace := trace w ++ [mkEvent (ProcessHrtime start)
                                       (Returned (JArr [num (fst t); num (snd t)]))];
          env := e' |}) ->
  wp (process_hrtime G start) Q w.
Proof.
  intros H. unfold wp, process_hrtime.
  destruct (hrtime G start (env w)) as [t e'] eqn:E. apply H. reflexivity.
Qed.

Lemma wp_getElapsedMs_at startTime (Q : Outcome JsValue -> World Env -> Prop) w :
  (forall t e',
     hrtime G (Some startTime) (env w) = (t, e') ->
     Q (Returned (elapsed_ms t))
       {| trace := trace w ++ [mkEvent (ProcessHrtime (Some startTime))
                                       (Returned (JArr [num (fst t); num (snd t)]))];
          env := e' |}) ->
  wp (getElapsedMs G startTime) Q w.
Proof.
  intros H. unfold getElapsedMs. apply wp_bind, wp_process_hrtime_at.
  intros [seconds nanoseconds] e' E. apply wp_ret, (H (seconds, nanoseconds)). exact E.
Qed.

End At.

(** X22.  What a call wrote is served to the next one, unless it was
    [undefined].  On a coherent backend, after a read-through call whose
    origin returned [response] and whose SET returned, the same call made
    again (with equal arguments, in the environment that the first call left)
    is a hit when [response] is not [undefined]: it returns [{ result:
    response, cacheKey, metadata: { hit: true, latency }, cacheErrors }] and
    invokes neither the origin nor SET.  When [response] is [undefined] the
    entry that was written counts for nothing: the second call invokes the
    origin again, and an envelope it returns says [hit: false]. *)
Theorem written_entry_is_served :
  forall (Env : Type) (G : Globals Env) (this : CapOperations Env)
         (stored : JsValue -> JsValue -> Env -> Prop) (c : RtCall Env) (e0 : Env)
         (response r : JsValue),
    Coherent G this stored ->
    returned is_origin response (trace_of (perform G this c) e0) ->
    returned is_set r (trace_of (perform G this c) e0) ->
    if is_defined response
    then
      never_invoked is_origin
        (trace_of (perform G this c) (final_env (perform G this c) e0))
      /\ never_invoked is_set
           (trace_of (perform G this c) (final_env (perform G this c) e0))
      /\ exists key latency cacheErrors,
           outcome_of (perform G this c) (final_env (perform G this c) e0)
           = Returned (envelope response key (JBool true) latency cacheErrors)
    else
      invoked is_origin
        (trace_of (perform G this c) (final_env (perform G this c) e0))
      /\ forall v,
           outcome_of (perform G this c) (final_env (perform G this c) e0) = Returned v ->
           env_hit v = JBool false.
Proof.
  intros Env G this stored c e0 response r Hc.
  pose (again := perform G this c).
  change (wp (perform G this c)
            (fun o1 w1 =>
               returned is_origin response (trace w1) ->
               returned is_set r (trace w1) ->
               wp again
                  (fun o2 w2 =>
                     if is_defined response
                     then
                       never_invoked is_origin (trace w2)
                       /\ never_invoked is_set (trace w2)
                       /\ exists key latency cacheErrors,
                            o2 = Returned (envelope response key (JBool true) latency
                                             cacheErrors)
                     else
                       invoked is_origin (trace w2)
                       /\ forall v, o2 = Returned v -> env_hit v = JBool false)
                  {| trace := []; env := env w1 |})
            {| trace := []; env := e0 |}).
  destruct c as [request service options | arg1 arg2 arg3];
    cbv beta iota delta [perform send run run_request run_query call_next call_srv_run
                         setHeader_opt extractMetadataFromRequest].
  (* the first call: it ends with a SET that returned *)
  all: repeat first
    [ lazymatch goal with
      | |- wp (safeCacheOperation (call _ _) _ _) _ _ =>
          let H := fresh "Hcall" in
          apply wp_safe_at; intros ? ? H; cbn [env] in H
      | |- wp (process_hrtime _ _) _ _ =>
          let H := fresh "Hclock" in
          apply wp_process_hrtime_at; intros ? ? H; cbn [env] in H
      | |- wp (getElapsedMs _ _) _ _ =>
          let H := fresh "Hclock" in
          apply wp_getElapsedMs_at; intros ? ? H; cbn [env] in H
      end; cbn beta iota delta [trace env app]
    | wp_step ].
  all: intros Horigin Hset; use_event Horigin; use_event Hset.
  all: repeat match goal with
              | x := _ |- _ => first [ constr_eq x again; fail 1 | subst x ]
              end.
  all: match goal with
       | H : cache_send _ "SET" _ _ = (Returned _, _) |- _ =>
           pose proof (set_stores Hc _ _ H) as Hst;
           cbn [get obj assoc String.eqb Ascii.eqb Bool.eqb] in Hst
       end.
  all: repeat match goal with H : _ = (_, _) |- _ => clear H end.
  (* the second call, from the environment that the first one left *)
  all: cbv beta iota delta [again perform send run run_request run_query call_next
                            call_srv_run setHeader_opt extractMetadataFromRequest];
       clear again.
  all: repeat first
    [ lazymatch goal with
      | |- wp (safeCacheOperation (call _ _) _ _) _ _ =>
          let H := fresh "Hcall" in
          apply wp_safe_at; intros ? ? H; cbn [env] in H
      | |- wp (process_hrtime _ _) _ _ =>
          let H := fresh "Hclock" in
          apply wp_process_hrtime_at; intros ? ? H; cbn [env] in H
      | |- wp (getElapsedMs _ _) _ _ =>
          let H := fresh "Hclock" in
          apply wp_getElapsedMs_at; intros ? ? H; cbn [env] in H
      end; cbn beta iota delta [trace env app]
    | wp_step ].
  all: repeat match goal with x := _ |- _ => subst x end.
  (* the entry is still there at each call on the backend *)
  all: repeat match goal with
       | Hs : _ ?k ?v ?e, H : hrtime _ ?s ?e = (_, _) |- _ =>
           let Hn := fresh "Hst" in
           pose proof (clock_keeps Hc k v s e Hs) as Hn;
           rewrite H in Hn; cbn [snd] in Hn; clear H Hs
       | Hs : _ ?k ?v ?e, H : recordHit _ ?l ?k' ?m ?e = (_, _) |- _ =>
           let Hn := fresh "Hst" in
           pose proof (recordHit_keeps Hc k v l k' m e Hs) as Hn;
           rewrite H in Hn; cbn [snd] in Hn; clear H Hs
       | Hs : _ ?k ?v ?e, H : cache_has _ ?k ?e = (_, _) |- _ =>
           let v' := fresh "v" in
           let e'' := fresh "e" in
           let Heq := fresh "Heq" in
           let Htruthy := fresh "Htruthy" in
           let Hn := fresh "Hst" in
           destruct (has_finds Hc k v e Hs eq_refl) as (v' & e'' & Heq & Htruthy & Hn);
           rewrite Heq in H; injection H as <- <-; clear Heq Hs
       | Hs : _ ?k ?v ?e, H : cache_send _ "GET" _ ?e = (_, _) |- _ =>
           let e'' := fresh "e" in
           let Heq := fresh "Heq" in
           destruct (get_finds Hc k v e Hs) as (e'' & Heq);
           rewrite Heq in H; injection H as <- <-; clear Heq Hs
       end.
  all: repeat match goal with
              | H : reports_true _ = _ |- _ => progress cbn [reports_true] in H
              | H : yields_value _ = _ |- _ =>
                  progress cbn [yields_value cached_value get_opt nullish get obj assoc
                                String.eqb Ascii.eqb Bool.eqb] in H
              end.
  all: try congruence.
  all: match goal with
       | H : is_defined _ = _ |- _ => rewrite H
       end.
  all: first [ split; [prove_never |]; split; [prove_never |];
               cbn [safe_result get obj assoc String.eqb Ascii.eqb Bool.eqb];
               do 3 eexists; reflexivity
             | split; [prove_invoked |];
               intros val Hout;
               first [discriminate Hout | injection Hout as <-; reflexivity] ].
Qed.

Lemma shelf_is_coherent :
  Coherent Sample.shelf_globals Sample.shelf_ops Sample.on_shelf.
Proof.
  constructor.
  - intros data e r e' H. cbn in H. injection H as _ <-.
    unfold Sample.on_shelf. cbn [assoc]. rewrite String.eqb_refl. reflexivity.
  - intros key entry e H Hdef. do 2 eexists. split; [reflexivity |].
    unfold Sample.on_shelf in H. rewrite H, Hdef. split; [reflexivity | exact H].
  - intros key entry e H. eexists. cbn. unfold Sample.on_shelf in H. rewrite H. reflexivity.
  - intros key entry start e H. exact H.
  - intros key entry latency k metadata e H. exact H.
Qed.

Lemma written_entry_is_served_witness :
  never_invoked is_origin
    (trace_of (perform Sample.shelf_globals Sample.shelf_ops Sample.shelf_books)
       (final_env (perform Sample.shelf_globals Sample.shelf_ops Sample.shelf_books) []))
  /\ never_invoked is_set
       (trace_of (perform Sample.shelf_globals Sample.shelf_ops Sample.shelf_books)
          (final_env (perform Sample.shelf_globals Sample.shelf_ops Sample.shelf_books) []))
  /\ exists key latency cacheErrors,
       outcome_of (perform Sample.shelf_globals Sample.shelf_ops Sample.shelf_books)
         (final_env (perform Sample.shelf_globals Sample.shelf_ops Sample.shelf_books) [])
       = Returned (envelope Fixture.book key (JBool true) latency cacheErrors).
Proof.
  apply (@written_entry_is_served Sample.shelf Sample.shelf_globals Sample.shelf_ops
           Sample.on_shelf Sample.shelf_books [] Fixture.book JUndefined).
  - exact shelf_is_coherent.
  - eexists (ServiceSend _). split; [reflexivity | vm_compute; prove_in].
  - eexists (CacheSend "SET" _). split; [reflexivity | vm_compute; prove_in].
Defined.

(** ** What makes a call throw *)



(** ** Arguments that the shortcuts of [CachingService] do not take *)

(** X24.  [CachingService.send] needs its second argument: called with a
    first argument of type "object" (a request object, [null]) and a second
    one that is [undefined] or [null], it throws a TypeError on reading
    [args[1].send] and invokes nothing, not even [super.send]. *)
Theorem CachingService_send_needs_a_target :
  forall (Env : Type) (G : Globals Env) (this : CapOperations Env)
         (super_send : JsValue -> SendTarget Env -> JsValue -> Eff Env JsValue)
         (arg1 target arg3 : JsValue) (e0 : Env),
    (typeof arg1 =? "object") = true ->
    nullish target = true ->
    exists e,
      exec (CachingService_send G this super_send arg1 (ToValue Env target) arg3) e0
      = (Thrown e, {| trace := []; env := e0 |})
      /\ err_name e = "TypeError".
Proof.
  intros Env G this super_send arg1 target arg3 e0 Htype Hnull.
  unfold exec, CachingService_send, target_send, member.
  rewrite Htype, Hnull. eexists. split; reflexivity.
Qed.

Lemma CachingService_send_needs_a_target_witness :
  exists e,
    exec (CachingService_send Fixture.globals Fixture.healthy Sample.super_send
            Fixture.get_books (ToValue unit JUndefined) JUndefined) tt
    = (Thrown e, {| trace := []; env := tt |})
    /\ err_name e = "TypeError".
Proof.
  apply CachingService_send_needs_a_target; reflexivity.
Defined.

(** X25.  [CachingService.run] called with [undefined] (no argument) or with
    [null] throws a TypeError on reading [.constructor] and invokes nothing:
    neither [super.run] nor the backend nor the origin. *)
Theorem CachingService_run_needs_an_argument :
  forall (Env : Type) (G : Globals Env) (this : CapOperations Env)
         (super_run : JsValue -> Eff Env JsValue)
         (arg1 : JsValue) (arg2 : Arg2 Env) (arg3 : JsValue) (e0 : Env),
    nullish arg1 = true ->
    exists e,
      exec (CachingService_run G this super_run arg1 arg2 arg3) e0
      = (Thrown e, {| trace := []; env := e0 |})
      /\ err_name e = "TypeError".
Proof.
  intros Env G this super_run arg1 arg2 arg3 e0 Hnull.
  destruct arg1; try discriminate Hnull; eexists; split; reflexivity.
Qed.

Lemma CachingService_run_needs_an_argument_witness :
  exists e,
    exec (CachingService_run Fixture.globals Fixture.healthy Sample.super_run
            JUndefined (A2Value unit JUndefined) JUndefined) tt
    = (Thrown e, {| trace := []; env := tt |})
    /\ err_name e = "TypeError".
Proof.
  apply CachingService_run_needs_an_argument. reflexivity.
Defined.
